(** * opennb: resolving a notebook reference, fetching it and launching the viewer

    A shallow embedding of [opennb.py].  Python [str] values are Rocq
    [string]s (read as the UTF-8 bytes of the text: every delimiter the
    program looks for is an ASCII character, so splitting, stripping and
    suffix tests on the bytes agree with the same operations on code
    points).  Effects (the metadata request, printing, the download and the
    child process) are recorded as a trace of events that the functions
    thread through; exceptions are values of the type [exn]. *)

From Stdlib Require Import Ascii String List ZArith Bool Lia.
From stdpp Require Import base gmap strings.
Import ListNotations.

Local Open Scope char_scope.
Local Open Scope stdpp_scope.

(* Let [simpl] compute an append whose left operand is known. *)
#[local] Arguments String.append !s1 s2 / : simpl nomatch.

(** ** The [str] methods the program uses *)

Module PyStr.

(** [c in s] for a one-character [c]. *)
Fixpoint contains (c : ascii) (s : string) : bool :=
  match s with
  | EmptyString => false
  | String a r => Ascii.eqb a c || contains c r
  end.

(** [s.split(sep, 1)]: a list of one or two pieces, cut at the first [sep]. *)
Fixpoint split1 (sep : ascii) (s : string) : list string :=
  match s with
  | EmptyString => [EmptyString]
  | String a r =>
      if Ascii.eqb a sep then [EmptyString; r]
      else match split1 sep r with
           | h :: t => String a h :: t
           | [] => [String a EmptyString]
           end
  end.

(** [s.split(sep)]: cut at every [sep]; the empty string gives [['']]. *)
Fixpoint split (sep : ascii) (s : string) : list string :=
  match s with
  | EmptyString => [EmptyString]
  | String a r =>
      if Ascii.eqb a sep then EmptyString :: split sep r
      else match split sep r with
           | h :: t => String a h :: t
           | [] => [String a EmptyString]
           end
  end.

Fixpoint lstrip (c : ascii) (s : string) : string :=
  match s with
  | EmptyString => EmptyString
  | String a r => if Ascii.eqb a c then lstrip c r else s
  end.

Fixpoint rstrip (c : ascii) (s : string) : string :=
  match s with
  | EmptyString => EmptyString
  | String a r =>
      match rstrip c r with
      | EmptyString => if Ascii.eqb a c then EmptyString else String a EmptyString
      | r' => String a r'
      end
  end.

(** [s.strip(c)] for a one-character set [c]. *)
Definition strip (c : ascii) (s : string) : string := rstrip c (lstrip c s).

Fixpoint startswith (s p : string) : bool :=
  match p, s with
  | EmptyString, _ => true
  | String b p', String a s' => Ascii.eqb a b && startswith s' p'
  | String _ _, EmptyString => false
  end.

(** [s.endswith(suffix)]: some tail of [s] is [suffix]. *)
Fixpoint endswith (s suffix : string) : bool :=
  String.eqb s suffix ||
  match s with
  | EmptyString => false
  | String _ r => endswith r suffix
  end.

(** [sep.join(l)]. *)
Fixpoint join (sep : string) (l : list string) : string :=
  match l with
  | [] => EmptyString
  | [x] => x
  | x :: r => x +:+ sep +:+ join sep r
  end.

(** Keep the characters that satisfy [f]. *)
Fixpoint filter (f : ascii -> bool) (s : string) : string :=
  match s with
  | EmptyString => EmptyString
  | String a r => if f a then String a (filter f r) else filter f r
  end.

Fixpoint forallb (f : ascii -> bool) (s : string) : bool :=
  match s with
  | EmptyString => true
  | String a r => f a && forallb f r
  end.

Fixpoint map (f : ascii -> ascii) (s : string) : string :=
  match s with
  | EmptyString => EmptyString
  | String a r => String (f a) (map f r)
  end.

End PyStr.

(** ** Exceptions *)

Inductive exn : Type :=
| ValueError (msg : string)
| HTTPError (code : Z) (reason : string)   (* urllib.error.HTTPError *)
| URLError (reason : string)               (* any other urllib.error.URLError *)
| JSONDecodeError (msg : string)
| KeyError (key : string)
| OSError (msg : string)
| CalledProcessError (returncode : Z) (cmd : list string).


(** ** [urllib.parse.urlparse]

    The parser of the standard library, as far as the [path] it returns is
    concerned.  The two deep validations of the network location (of a
    bracketed IPv6 literal, and of a non-ASCII host under NFKC
    normalisation) are taken as the parameter [check_netloc]. *)

Module UrlParse.

Record ParseResult : Type := {
  scheme : string; netloc : string; path : string;
  params : string; query : string; fragment : string
}.

Definition in_range (lo hi : N) (c : ascii) : bool :=
  (lo <=? N_of_ascii c)%N && (N_of_ascii c <=? hi)%N.

(* '\x00' .. '\x1f' and ' ' *)
Definition _WHATWG_C0_CONTROL_OR_SPACE (c : ascii) : bool := in_range 0 32 c.

(* '\t', '\r', '\n' *)
Definition _UNSAFE_URL_BYTES_TO_REMOVE (c : ascii) : bool :=
  (N_of_ascii c =? 9)%N || (N_of_ascii c =? 13)%N || (N_of_ascii c =? 10)%N.

Definition scheme_chars : string :=
  "abcdefghijklmnopqrstuvwxyzABCDEFGHIJKLMNOPQRSTUVWXYZ0123456789+-.".

Definition uses_params : list string :=
  [EmptyString; "ftp"; "hdl"; "prospero"; "http"; "imap"; "https"; "shttp"; "rtsp";
   "rtspu"; "sip"; "sips"; "mms"; "sftp"; "tel"].

(* c.isascii() and c.isalpha() *)
Definition isalpha (c : ascii) : bool := in_range 65 90 c || in_range 97 122 c.

Definition lower_char (c : ascii) : ascii :=
  if in_range 65 90 c then ascii_of_N (N_of_ascii c + 32) else c.

Definition isascii (s : string) : bool := PyStr.forallb (in_range 0 127) s.

Fixpoint lstrip_chars (f : ascii -> bool) (s : string) : string :=
  match s with
  | EmptyString => EmptyString
  | String a r => if f a then lstrip_chars f r else s
  end.

(** [a, b = s.split(sep, 1)] when [sep] is in [s]; [(s, '')] otherwise. *)
Definition cut (sep : ascii) (s : string) : string * string :=
  match PyStr.split1 sep s with
  | [a; b] => (a, b)
  | _ => (s, EmptyString)
  end.

(** The scheme, when [url] starts with one, and what follows its colon. *)
Definition split_scheme (url : string) : string * string :=
  match PyStr.split1 ":" url with
  | [String c0 r0; after] =>
      if isalpha c0 &&
         PyStr.forallb (fun c => PyStr.contains c scheme_chars) (String c0 r0)
      then (PyStr.map lower_char (String c0 r0), after)
      else (EmptyString, url)
  | _ => (EmptyString, url)
  end.

(** [_splitnetloc]: the text up to the first of '/', '?', '#', and the rest. *)
Fixpoint _splitnetloc (s : string) : string * string :=
  match s with
  | EmptyString => (EmptyString, EmptyString)
  | String c r =>
      if PyStr.contains c "/?#" then (EmptyString, s)
      else let (n, rest) := _splitnetloc r in (String c n, rest)
  end.

(** [_splitparams]: cut at the first ';' of the last '/'-segment. *)
Fixpoint _splitparams (url : string) : string * string :=
  match url with
  | EmptyString => (EmptyString, EmptyString)
  | String c r =>
      if PyStr.contains "/" r
      then let (p, q) := _splitparams r in (String c p, q)
      else if Ascii.eqb c "/"
           then let (p, q) := cut ";" r in (String c p, q)
           else cut ";" url
  end.

Section WithNetlocCheck.

Variable check_netloc : string -> option exn.

Definition validate_netloc (n : string) : option exn :=
  let ob := PyStr.contains "[" n in
  let cb := PyStr.contains "]" n in
  if xorb ob cb then Some (ValueError "Invalid IPv6 URL")
  else if (ob && cb) || negb (isascii n) then check_netloc n
  else None.

Definition urlparse (url : string) : exn + ParseResult :=
  let url := lstrip_chars _WHATWG_C0_CONTROL_OR_SPACE url in
  let url := PyStr.filter (fun c => negb (_UNSAFE_URL_BYTES_TO_REMOVE c)) url in
  let '(scheme, url) := split_scheme url in
  let '(netloc, url) :=
    match url with
    | String "/" (String "/" r) => _splitnetloc r
    | _ => (EmptyString, url)
    end in
  match validate_netloc netloc with
  | Some e => inl e
  | None =>
      let '(url, fragment) := cut "#" url in
      let '(url, query) := cut "?" url in
      let '(url, params) :=
        if existsb (String.eqb scheme) uses_params && PyStr.contains ";" url
        then _splitparams url
        else (url, EmptyString) in
      inr {| scheme := scheme; netloc := netloc; path := url;
             params := params; query := query; fragment := fragment |}
  end.

End WithNetlocCheck.

End UrlParse.

(** ** [pathlib.Path] on a POSIX system: a root and the list of components *)

Module Pathlib.

Record Path : Type := { root : string; parts : list string }.

Definition splitroot (part : string) : string * string :=
  match part with
  | String "/" _ =>
      let stripped := PyStr.lstrip "/" part in
      if (String.length part - String.length stripped =? 2)%nat
      then ("//", stripped) else ("/", stripped)
  | _ => (EmptyString, part)
  end.

Definition is_component (x : string) : bool :=
  negb (String.eqb x EmptyString) && negb (String.eqb x ".").

(** [Path(s)] *)
Definition of_str (s : string) : Path :=
  let (rt, rel) := splitroot s in
  {| root := rt; parts := List.filter is_component (PyStr.split "/" rel) |}.

(** [p.name] *)
Definition name (p : Path) : string := List.last (parts p) EmptyString.

(** [p / key] *)
Definition truediv (p : Path) (key : string) : Path :=
  let q := of_str key in
  if String.eqb (root q) EmptyString
  then {| root := root p; parts := parts p ++ parts q |}
  else q.

(** [str(p)] *)
Definition str (p : Path) : string :=
  match root p, parts p with
  | EmptyString, [] => "."
  | rt, ps => rt +:+ PyStr.join "/" ps
  end.

End Pathlib.

(** ** Events and the monad of effectful code *)

(** What the program does to the outside world, in the order it does it. *)
Inductive event : Type :=
| EvUrlopen (url : string)                     (* urllib.request.urlopen(url) *)
| EvPrint (line : string)                      (* print(line) *)
| EvUrlretrieve (url : string) (dest : string) (* urllib.request.urlretrieve(url, dest) *)
| EvRun (cmd : list string).                   (* subprocess.run(cmd, check=True) *)

(** A computation takes the trace so far and gives a value or a raised
    exception, with the extended trace. *)
Definition M (A : Type) : Type := list event -> (exn + A) * list event.

Definition ret {A} (a : A) : M A := fun t => (inr a, t).
Definition raise {A} (e : exn) : M A := fun t => (inl e, t).
Definition bind {A B} (c : M A) (k : A -> M B) : M B :=
  fun t => match c t with
           | (inr a, t') => k a t'
           | (inl e, t') => (inl e, t')
           end.
Definition emit (ev : event) : M unit := fun t => (inr tt, t ++ [ev]).
Definition lift {A} (r : exn + A) : M A :=
  match r with inr a => ret a | inl e => raise e end.

(** [try: c  except <class> as e: h e]; [h] decides which exceptions it takes. *)
Definition try_except {A} (c : M A) (h : exn -> M A) : M A :=
  fun t => match c t with
           | (inr a, t') => (inr a, t')
           | (inl e, t') => h e t'
           end.

Declare Scope py_scope.
Delimit Scope py_scope with py.
Notation "'do' x <- c ; k" := (bind c (fun x => k))
  (at level 10, x name, c at level 100, k at level 200) : py_scope.
Notation "'do' ' p <- c ; k" := (bind c (fun x => let 'p := x in k))
  (at level 10, p pattern, c at level 100, k at level 200) : py_scope.
Local Open Scope py_scope.

(** [a, b = l]: unpacking a list into two names. *)
Definition unpack2 (l : list string) : M (string * string) :=
  match l with
  | [a; b] => ret (a, b)
  | [] | [_] => raise (ValueError "not enough values to unpack (expected 2)")
  | _ => raise (ValueError "too many values to unpack (expected 2)")
  end.

(** ** The outside world

    The answers of the collaborators the program talks to.  [json_loads] is
    the decoder of the standard library, taken as a parameter; the decoded
    metadata object is a dictionary from field names to strings. *)
Record Env : Type := {
  urlopen_read : string -> exn + string;
    (* body read from urlopen(url), or the exception the request raises *)
  json_loads : string -> exn + gmap string string;
  urlretrieve_reply : string -> string -> option exn;
    (* None when the download succeeds *)
  run_reply : list string -> exn + Z;
    (* exit status of the child, or the exception raised when spawning it *)
  check_netloc : string -> option exn;
    (* urllib's validation of a bracketed or non-ASCII network location *)
  cwd : Pathlib.Path
    (* Path.cwd() *)
}.

Section Opennb.

Variable E : Env.

Definition urlopen (url : string) : M string :=
  do _ <- emit (EvUrlopen url);
  lift (urlopen_read E url).

Definition getitem (data : gmap string string) (key : string) : M string :=
  match data !! key with
  | Some v => ret v
  | None => raise (KeyError key)
  end.

(** [_get_default_branch(owner, repo)] *)
Definition _get_default_branch (owner repo : string) : M string :=
  let url := "https://api.github.com/repos/" +:+ owner +:+ "/" +:+ repo in
  try_except
    (do response <- urlopen url;
     do data <- lift (json_loads E response);
     getitem data "default_branch")
    (fun e =>
       match e with
       | HTTPError code _ =>
           if (code =? 404)%Z
           then raise (ValueError ("Repository " +:+ owner +:+ "/" +:+ repo +:+ " not found"))
           else raise e
       | _ => raise e
       end).

(** [_convert_github_path_to_raw_url(path)] *)
Definition _convert_github_path_to_raw_url (path : string) : M string :=
  (* First split on # to separate file path *)
  let parts := PyStr.split1 "#" path in
  let repo_part := nth 0 parts EmptyString in
  let file_path := if (1 <? length parts)%nat then nth_error parts 1 else None in
  (* Then handle repository and branch *)
  do '(repo_info, branch) <-
    (if PyStr.contains "@" repo_part
     then do '(repo_info, branch) <- unpack2 (PyStr.split1 "@" repo_part);
          ret (repo_info, Some branch)
     else ret (repo_part, None));
  (* Parse owner/repository *)
  let repo_parts := PyStr.split "/" (PyStr.strip "/" repo_info) in
  if negb (length repo_parts =? 2)%nat
  then raise (ValueError "Repository path must be in format: owner/repository")
  else
    do '(owner, repo) <- unpack2 repo_parts;
    (* If no branch specified, get the default branch *)
    do branch <- match branch with
                 | None => _get_default_branch owner repo
                 | Some b => ret b
                 end;
    (* Handle file path *)
    do '(branch, file_path) <-
      match file_path with
      | None =>
          (* No # separator, so the file path must be in the branch part *)
          if negb (PyStr.contains "/" branch)
          then raise (ValueError "No file path specified")
          else unpack2 (PyStr.split1 "/" branch)
      | Some fp => ret (branch, fp)
      end;
    if negb (PyStr.endswith file_path ".ipynb")
    then raise (ValueError "Path must end with .ipynb")
    else ret ("https://raw.githubusercontent.com/" +:+ owner +:+ "/" +:+ repo
                +:+ "/" +:+ branch +:+ "/" +:+ file_path).

Definition urlretrieve (url : string) (dest : Pathlib.Path) : M unit :=
  do _ <- emit (EvUrlretrieve url (Pathlib.str dest));
  match urlretrieve_reply E url (Pathlib.str dest) with
  | None => ret tt
  | Some e => raise e
  end.

(** [subprocess.run(cmd, check=True)] *)
Definition subprocess_run (cmd : list string) : M unit :=
  do _ <- emit (EvRun cmd);
  match run_reply E cmd with
  | inl e => raise e
  | inr rc => if (rc =? 0)%Z then ret tt else raise (CalledProcessError rc cmd)
  end.

(** [open_notebook_from_url(url, output_dir, jupyter_args)] *)
Definition open_notebook_from_url (url : string) (output_dir : option Pathlib.Path)
    (jupyter_args : option (list string)) : M unit :=
  (* Check if it's a GitHub repository path *)
  do url <- (if negb (PyStr.startswith url "http://" || PyStr.startswith url "https://")
             then _convert_github_path_to_raw_url url
             else ret url);
  (* Parse the filename from the URL *)
  do parsed <- lift (UrlParse.urlparse (check_netloc E) url);
  let filename := Pathlib.name (Pathlib.of_str (UrlParse.path parsed)) in
  if negb (PyStr.endswith filename ".ipynb")
  then raise (ValueError "URL must point to a Jupyter notebook (.ipynb file)")
  else
    (* Set output directory *)
    let output_dir := match output_dir with Some d => d | None => cwd E end in
    let output_path := Pathlib.truediv output_dir filename in
    (* Download the notebook *)
    do _ <- emit (EvPrint ("Downloading notebook from " +:+ url));
    do _ <- urlretrieve url output_path;
    (* Prepare jupyter notebook command *)
    let cmd := ["jupyter"; "notebook"; Pathlib.str output_path] in
    let cmd := match jupyter_args with
               | Some (a :: l) => cmd ++ a :: l
               | _ => cmd
               end in
    (* Open the notebook *)
    do _ <- emit (EvPrint ("Opening notebook " +:+ Pathlib.str output_path));
    subprocess_run cmd.

End Opennb.

(** ** Vocabulary of the statements *)

(** The resolver up to its suffix check (lines 54 to 82 of the source): the
    owner, the repository, the branch and the file path it arrives at, by
    the same steps in the same order.  [resolver_checks_parts] below shows
    that the resolver is these steps followed by the check and the URL. *)
Definition resolved_parts (E : Env) (path : string)
    : M (string * string * string * string) :=
  let parts := PyStr.split1 "#" path in
  let repo_part := nth 0 parts EmptyString in
  let file_path := if (1 <? length parts)%nat then nth_error parts 1 else None in
  do '(repo_info, branch) <-
    (if PyStr.contains "@" repo_part
     then do '(repo_info, branch) <- unpack2 (PyStr.split1 "@" repo_part);
          ret (repo_info, Some branch)
     else ret (repo_part, None));
  let repo_parts := PyStr.split "/" (PyStr.strip "/" repo_info) in
  if negb (length repo_parts =? 2)%nat
  then raise (ValueError "Repository path must be in format: owner/repository")
  else
    do '(owner, repo) <- unpack2 repo_parts;
    do branch <- match branch with
                 | None => _get_default_branch E owner repo
                 | Some b => ret b
                 end;
    do '(branch, file_path) <-
      match file_path with
      | None =>
          if negb (PyStr.contains "/" branch)
          then raise (ValueError "No file path specified")
          else unpack2 (PyStr.split1 "/" branch)
      | Some fp => ret (branch, fp)
      end;
    ret (owner, repo, branch, file_path).

(** A string that can stand as the owner or the repository of a shorthand:
    not empty, and free of the three delimiters of the grammar. *)
Definition is_name (s : string) : bool :=
  negb (String.eqb s EmptyString) && negb (PyStr.contains "/" s)
  && negb (PyStr.contains "@" s) && negb (PyStr.contains "#" s).

(** A world for the examples: the metadata request answers with default
    branch [main], the download succeeds, the viewer exits with status 0. *)
Definition env_main : Env := {|
  urlopen_read := fun _ => inr "metadata";
  json_loads := fun _ => inr {[ "default_branch" := "main" ]};
  urlretrieve_reply := fun _ _ => None;
  run_reply := fun _ => inr 0%Z;
  check_netloc := fun _ => None;
  cwd := Pathlib.of_str "/home/user"
|}.

(** The same world, with a metadata request that fails with the given status. *)
Definition env_http_error (code : Z) (reason : string) : Env := {|
  urlopen_read := fun _ => inl (HTTPError code reason);
  json_loads := json_loads env_main;
  urlretrieve_reply := urlretrieve_reply env_main;
  run_reply := run_reply env_main;
  check_netloc := check_netloc env_main;
  cwd := cwd env_main
|}.

(** The world of [env_main] with other answers to the metadata request, from
    the decoder and to the download. *)
Definition env_with (read : string -> exn + string)
    (loads : string -> exn + gmap string string)
    (retrieve : string -> string -> option exn) : Env := {|
  urlopen_read := read;
  json_loads := loads;
  urlretrieve_reply := retrieve;
  run_reply := run_reply env_main;
  check_netloc := check_netloc env_main;
  cwd := cwd env_main
|}.

(** The world of [env_main] with another default branch. *)
Definition env_branch (branch : string) : Env :=
  env_with (urlopen_read env_main)
    (fun _ => inr {[ "default_branch" := branch ]})
    (urlretrieve_reply env_main).

(** * Facts about the string operations *)

Section StrFacts.

Import PyStr.

Lemma str_app_assoc (a b c : string) : (a +:+ b) +:+ c = a +:+ (b +:+ c).
Proof. induction a as [|x a IH]; simpl; [reflexivity | now rewrite IH]. Qed.

Lemma contains_app c a b :
  contains c (a +:+ b) = contains c a || contains c b.
Proof.
  induction a as [|x a IH]; simpl; [reflexivity|].
  rewrite IH. apply orb_assoc.
Qed.

Lemma split1_absent c s : contains c s = false -> split1 c s = [s].
Proof.
  induction s as [|x s IH]; simpl; [reflexivity|].
  intros H. apply orb_false_elim in H as [Hx Hs].
  rewrite Hx, (IH Hs). reflexivity.
Qed.

Lemma split1_first c a b :
  contains c a = false -> split1 c (a +:+ String c b) = [a; b].
Proof.
  induction a as [|x a IH]; simpl.
  - intros _. rewrite Ascii.eqb_refl. reflexivity.
  - intros H. apply orb_false_elim in H as [Hx Ha].
    rewrite Hx, (IH Ha). reflexivity.
Qed.

Lemma split_nonempty c s : split c s <> [].
Proof.
  destruct s as [|x s]; simpl; [discriminate|].
  destruct (Ascii.eqb x c); [discriminate|].
  destruct (split c s); discriminate.
Qed.

Lemma split_absent c s : contains c s = false -> split c s = [s].
Proof.
  induction s as [|x s IH]; simpl; [reflexivity|].
  intros H. apply orb_false_elim in H as [Hx Hs].
  rewrite Hx, (IH Hs). reflexivity.
Qed.

Lemma split_first c a b :
  contains c a = false -> split c (a +:+ String c b) = a :: split c b.
Proof.
  induction a as [|x a IH]; simpl.
  - intros _. rewrite Ascii.eqb_refl. reflexivity.
  - intros H. apply orb_false_elim in H as [Hx Ha].
    rewrite Hx, (IH Ha). reflexivity.
Qed.

Lemma lstrip_absent c s : contains c s = false -> lstrip c s = s.
Proof.
  destruct s as [|x s]; simpl; [reflexivity|].
  intros H. apply orb_false_elim in H as [Hx _]. rewrite Hx. reflexivity.
Qed.

Lemma lstrip_app c a b :
  a <> EmptyString -> contains c a = false -> lstrip c (a +:+ b) = a +:+ b.
Proof.
  destruct a as [|x a]; simpl; [congruence|].
  intros _ H. apply orb_false_elim in H as [Hx _]. rewrite Hx. reflexivity.
Qed.

Lemma rstrip_absent c s : contains c s = false -> rstrip c s = s.
Proof.
  induction s as [|x s IH]; simpl; [reflexivity|].
  intros H. apply orb_false_elim in H as [Hx Hs].
  rewrite (IH Hs), Hx. destruct s; reflexivity.
Qed.

Lemma app_empty_inv a b : a +:+ b = EmptyString -> b = EmptyString.
Proof. destruct a; simpl; [auto | discriminate]. Qed.

Lemma rstrip_app c a r :
  r <> EmptyString -> contains c r = false -> rstrip c (a +:+ r) = a +:+ r.
Proof.
  intros Hr Hc. induction a as [|x a IH].
  - apply rstrip_absent, Hc.
  - change (String x a +:+ r) with (String x (a +:+ r)).
    cbn [rstrip]. rewrite IH. destruct (a +:+ r) eqn:Har; [|reflexivity].
    apply app_empty_inv in Har. contradiction.
Qed.

Lemma endswith_app a suffix : endswith (a +:+ suffix) suffix = true.
Proof.
  induction a as [|x a IH]; simpl.
  - destruct suffix; simpl; rewrite ?String.eqb_refl, ?Ascii.eqb_refl; reflexivity.
  - rewrite IH. apply orb_true_r.
Qed.

Lemma endswith_inv s suffix :
  endswith s suffix = true -> exists a, s = a +:+ suffix.
Proof.
  induction s as [|x s IH].
  - destruct suffix; [exists EmptyString; reflexivity | discriminate].
  - cbn [endswith]. intros [H|H]%orb_true_iff.
    + apply String.eqb_eq in H. exists EmptyString. now rewrite <- H.
    + destruct (IH H) as [a ->]. now exists (String x a).
Qed.

Lemma is_name_inv s :
  is_name s = true ->
  s <> EmptyString /\ contains "/" s = false /\
  contains "@" s = false /\ contains "#" s = false.
Proof.
  unfold is_name. rewrite !andb_true_iff, !negb_true_iff.
  intros [[[H1 H2] H3] H4]. apply String.eqb_neq in H1. auto.
Qed.

(** The owner/repo part as the parser of step 3 sees it. *)
Lemma owner_repo_parts owner repo :
  is_name owner = true -> is_name repo = true ->
  split "/" (strip "/" (owner +:+ String "/" repo)) = [owner; repo].
Proof.
  intros (Ho & Hos & _ & _)%is_name_inv (Hr & Hrs & _ & _)%is_name_inv.
  unfold strip. rewrite (lstrip_app _ _ _ Ho Hos).
  change (String "/" repo) with ("/" +:+ repo).
  rewrite <- str_app_assoc, (rstrip_app _ _ _ Hr Hrs), str_app_assoc.
  change ("/" +:+ repo) with (String "/" repo).
  rewrite (split_first _ _ _ Hos), (split_absent _ _ Hrs). reflexivity.
Qed.

End StrFacts.

(** * The resolver on each form of shorthand *)

Section ResolverFacts.

Import PyStr.
Variable E : Env.

Ltac step := cbv beta iota zeta delta [bind ret raise unpack2 lift].

Ltac names Ho Hr :=
  let H := fresh in
  pose proof (is_name_inv _ Ho) as (? & ? & ? & ?);
  pose proof (is_name_inv _ Hr) as (? & ? & ? & ?).

Lemma owner_repo_no c owner repo :
  contains c owner = false -> contains c repo = false ->
  Ascii.eqb "/" c = false ->
  contains c (owner +:+ String "/" repo) = false.
Proof.
  intros Ho Hr Hc. rewrite contains_app. cbn [contains]. now rewrite Ho, Hr, Hc.
Qed.

(** [owner/repo@branch#path]: both parts explicit. *)
Lemma resolve_explicit owner repo branch fp t :
  is_name owner = true -> is_name repo = true ->
  contains "#" branch = false ->
  _convert_github_path_to_raw_url E
    (owner +:+ "/" +:+ repo +:+ "@" +:+ branch +:+ "#" +:+ fp) t
  = (if endswith fp ".ipynb"
     then inr ("https://raw.githubusercontent.com/" +:+ owner +:+ "/" +:+ repo
                 +:+ "/" +:+ branch +:+ "/" +:+ fp)
     else inl (ValueError "Path must end with .ipynb"), t).
Proof.
  intros Ho Hr Hb. names Ho Hr.
  assert (Hri_at : contains "@" (owner +:+ String "/" repo) = false)
    by now apply owner_repo_no.
  assert (Hri_hash : contains "#" (owner +:+ String "/" repo) = false)
    by now apply owner_repo_no.
  set (repo_part := (owner +:+ String "/" repo) +:+ String "@" branch).
  assert (Hshape : owner +:+ "/" +:+ repo +:+ "@" +:+ branch +:+ "#" +:+ fp
                   = repo_part +:+ String "#" fp).
  { unfold repo_part. rewrite !str_app_assoc. reflexivity. }
  assert (Hrp : contains "#" repo_part = false).
  { unfold repo_part. rewrite contains_app. cbn [contains].
    now rewrite Hri_hash, Hb. }
  cbv beta zeta delta [_convert_github_path_to_raw_url].
  rewrite Hshape, (split1_first _ _ _ Hrp). cbn [nth nth_error length Nat.ltb Nat.leb].
  assert (Hat : contains "@" repo_part = true).
  { unfold repo_part. rewrite contains_app. simpl. apply orb_true_r. }
  rewrite Hat. unfold repo_part at 1. rewrite (split1_first _ _ _ Hri_at).
  step. rewrite (owner_repo_parts _ _ Ho Hr). cbn [length Nat.eqb negb]. step.
  destruct (endswith fp ".ipynb"); reflexivity.
Qed.

(** [owner/repo@rest], no '#': the file path has to come out of [rest]. *)
Lemma resolve_at_only owner repo rest t :
  is_name owner = true -> is_name repo = true ->
  contains "#" rest = false ->
  _convert_github_path_to_raw_url E (owner +:+ "/" +:+ repo +:+ "@" +:+ rest) t
  = if contains "/" rest
    then bind (unpack2 (split1 "/" rest))
           (fun '(branch, fp) =>
              if endswith fp ".ipynb"
              then ret ("https://raw.githubusercontent.com/" +:+ owner +:+ "/" +:+ repo
                          +:+ "/" +:+ branch +:+ "/" +:+ fp)
              else raise (ValueError "Path must end with .ipynb")) t
    else (inl (ValueError "No file path specified"), t).
Proof.
  intros Ho Hr Hb. names Ho Hr.
  assert (Hri_at : contains "@" (owner +:+ String "/" repo) = false)
    by now apply owner_repo_no.
  assert (Hri_hash : contains "#" (owner +:+ String "/" repo) = false)
    by now apply owner_repo_no.
  set (repo_part := (owner +:+ String "/" repo) +:+ String "@" rest).
  assert (Hshape : owner +:+ "/" +:+ repo +:+ "@" +:+ rest = repo_part).
  { unfold repo_part. rewrite !str_app_assoc. reflexivity. }
  assert (Hrp : contains "#" repo_part = false).
  { unfold repo_part. rewrite contains_app. cbn [contains].
    now rewrite Hri_hash, Hb. }
  cbv beta zeta delta [_convert_github_path_to_raw_url].
  rewrite Hshape, (split1_absent _ _ Hrp). cbn [nth nth_error length Nat.ltb Nat.leb].
  assert (Hat : contains "@" repo_part = true).
  { unfold repo_part. rewrite contains_app. simpl. apply orb_true_r. }
  rewrite Hat. unfold repo_part at 1. rewrite (split1_first _ _ _ Hri_at).
  step. rewrite (owner_repo_parts _ _ Ho Hr). cbn [length Nat.eqb negb]. step.
  destruct (contains "/" rest) eqn:Hs; cbn [negb]; [|reflexivity].
  destruct (split1 "/" rest) as [|b [|p [|? ?]]]; try reflexivity.
  destruct (endswith p ".ipynb"); reflexivity.
Qed.

(** No '@' and no '#': the whole input is read as owner/repo. *)
Lemma resolve_unmarked path t :
  contains "@" path = false -> contains "#" path = false ->
  _convert_github_path_to_raw_url E path t
  = match split "/" (strip "/" path) with
    | [owner; repo] =>
        bind (_get_default_branch E owner repo)
          (fun branch =>
             if contains "/" branch
             then bind (unpack2 (split1 "/" branch))
                    (fun '(branch, fp) =>
                       if endswith fp ".ipynb"
                       then ret ("https://raw.githubusercontent.com/" +:+ owner +:+ "/"
                                   +:+ repo +:+ "/" +:+ branch +:+ "/" +:+ fp)
                       else raise (ValueError "Path must end with .ipynb"))
             else raise (ValueError "No file path specified")) t
    | _ => (inl (ValueError "Repository path must be in format: owner/repository"), t)
    end.
Proof.
  intros Hat Hhash.
  cbv beta zeta delta [_convert_github_path_to_raw_url].
  rewrite (split1_absent _ _ Hhash). cbn [nth nth_error length Nat.ltb Nat.leb].
  rewrite Hat. step.
  destruct (split "/" (strip "/" path)) as [|o [|r [|? ?]]]; try reflexivity.
  cbn [length Nat.eqb negb]. step.
  destruct (_get_default_branch E o r t) as [[e|br] t']; [reflexivity|].
  destruct (contains "/" br); cbn [negb]; [|reflexivity].
  destruct (split1 "/" br) as [|b [|p [|? ?]]]; try reflexivity.
  destruct (endswith p ".ipynb"); reflexivity.
Qed.

(** [owner/repo#path]: the branch comes from the lookup. *)
Lemma resolve_hash_only owner repo fp t :
  is_name owner = true -> is_name repo = true ->
  _convert_github_path_to_raw_url E (owner +:+ "/" +:+ repo +:+ "#" +:+ fp) t
  = bind (_get_default_branch E owner repo)
      (fun branch =>
         if endswith fp ".ipynb"
         then ret ("https://raw.githubusercontent.com/" +:+ owner +:+ "/" +:+ repo
                     +:+ "/" +:+ branch +:+ "/" +:+ fp)
         else raise (ValueError "Path must end with .ipynb")) t.
Proof.
  intros Ho Hr. names Ho Hr.
  assert (Hri_at : contains "@" (owner +:+ String "/" repo) = false)
    by now apply owner_repo_no.
  assert (Hri_hash : contains "#" (owner +:+ String "/" repo) = false)
    by now apply owner_repo_no.
  assert (Hshape : owner +:+ "/" +:+ repo +:+ "#" +:+ fp
                   = (owner +:+ String "/" repo) +:+ String "#" fp).
  { rewrite !str_app_assoc. reflexivity. }
  cbv beta zeta delta [_convert_github_path_to_raw_url].
  rewrite Hshape, (split1_first _ _ _ Hri_hash).
  cbn [nth nth_error length Nat.ltb Nat.leb].
  rewrite Hri_at. step.
  rewrite (owner_repo_parts _ _ Ho Hr). cbn [length Nat.eqb negb]. step.
  destruct (_get_default_branch E owner repo t) as [[e|br] t']; [reflexivity|].
  destruct (endswith fp ".ipynb"); reflexivity.
Qed.

(** ** The lookup *)

Lemma lookup_trace owner repo t :
  snd (_get_default_branch E owner repo t)
  = t ++ [EvUrlopen ("https://api.github.com/repos/" +:+ owner +:+ "/" +:+ repo)].
Proof.
  unfold _get_default_branch, try_except, urlopen, bind, emit, lift, getitem, ret, raise.
  destruct (urlopen_read E _) as [e|body]; cbn.
  - destruct e; try reflexivity. destruct (_ =? _)%Z; reflexivity.
  - destruct (json_loads E body) as [e|data]; cbn.
    + destruct e; try reflexivity. destruct (_ =? _)%Z; reflexivity.
    + destruct (data !! _); cbn; reflexivity.
Qed.

End ResolverFacts.

(** * The claims about the resolver *)

Import PyStr.

(** C1 (as the code behaves): a shorthand [owner/repo/file.ipynb] without
    '@' and '#' never reaches the default-branch lookup.  The resolver reads
    the whole input as the owner/repo part, finds three or more components
    and raises the owner/repository format error, leaving the trace as it
    was: no lookup is made, and no URL is returned. *)
Theorem unmarked_shorthand_is_rejected (E : Env) owner repo file t :
  is_name owner = true -> is_name repo = true ->
  contains "@" file = false -> contains "#" file = false ->
  endswith file ".ipynb" = true ->
  _convert_github_path_to_raw_url E (owner +:+ "/" +:+ repo +:+ "/" +:+ file) t
  = (inl (ValueError "Repository path must be in format: owner/repository"), t).
Proof.
  intros Ho Hr Hfa Hfh Hsuf.
  pose proof (is_name_inv _ Ho) as (Hone & Hos & Hoa & Hoh).
  pose proof (is_name_inv _ Hr) as (Hrne & Hrs & Hra & Hrh).
  set (path := owner +:+ "/" +:+ repo +:+ "/" +:+ file).
  assert (Hat : contains "@" path = false).
  { unfold path. rewrite !contains_app. cbn [contains].
    now rewrite Hoa, Hra, Hfa. }
  assert (Hhash : contains "#" path = false).
  { unfold path. rewrite !contains_app. cbn [contains].
    now rewrite Hoh, Hrh, Hfh. }
  rewrite (resolve_unmarked E path t Hat Hhash).
  assert (Hstrip : strip "/" path = path).
  { unfold strip, path. rewrite (lstrip_app _ _ _ Hone Hos).
    destruct (endswith_inv _ _ Hsuf) as [stem ->].
    rewrite <- !str_app_assoc. now apply rstrip_app. }
  rewrite Hstrip. unfold path.
  change ("/" +:+ repo +:+ "/" +:+ file) with (String "/" (repo +:+ String "/" file)).
  rewrite (split_first _ _ _ Hos), (split_first _ _ _ Hrs).
  pose proof (split_nonempty "/" file).
  destruct (split "/" file); [contradiction | reflexivity].
Qed.

Lemma unmarked_shorthand_is_rejected_witness :
  _convert_github_path_to_raw_url env_main "owner/repo/path/notebook.ipynb" []
  = (inl (ValueError "Repository path must be in format: owner/repository"), []).
Proof.
  apply (unmarked_shorthand_is_rejected env_main "owner" "repo" "path/notebook.ipynb" []);
    reflexivity.
Defined.

(** C2: an input without '@' and '#' whose slash-trimmed form has more than
    two '/'-separated segments fails the two-component check with the
    owner/repository format error; nothing is looked up and the extra
    segments are not taken as a file path. *)
Theorem extra_segments_fail_format_check (E : Env) path t :
  contains "@" path = false -> contains "#" path = false ->
  (2 < length (split "/" (strip "/" path)))%nat ->
  _convert_github_path_to_raw_url E path t
  = (inl (ValueError "Repository path must be in format: owner/repository"), t).
Proof.
  intros Hat Hhash Hlen. rewrite (resolve_unmarked E path t Hat Hhash).
  destruct (split "/" (strip "/" path)) as [|o [|r [|x l]]]; try reflexivity.
  cbn in Hlen. lia.
Qed.

Lemma extra_segments_fail_format_check_witness :
  _convert_github_path_to_raw_url env_main "/owner/repo/docs/intro.ipynb/" []
  = (inl (ValueError "Repository path must be in format: owner/repository"), []).
Proof.
  apply (extra_segments_fail_format_check env_main "/owner/repo/docs/intro.ipynb/" []).
  - reflexivity.
  - reflexivity.
  - cbn. lia.
Defined.

(** C3 (as the code behaves): the bare shorthand [owner/repo] passes the
    two-component check.  The resolver asks for the default branch, and when
    the lookup answers with a branch name that has no '/', it fails with
    "No file path specified", not with the owner/repository format error. *)
Theorem bare_owner_repo_reaches_lookup (E : Env) owner repo branch t t' :
  is_name owner = true -> is_name repo = true ->
  _get_default_branch E owner repo t = (inr branch, t') ->
  contains "/" branch = false ->
  _convert_github_path_to_raw_url E (owner +:+ "/" +:+ repo) t
  = (inl (ValueError "No file path specified"), t')
  /\ t' = t ++ [EvUrlopen ("https://api.github.com/repos/" +:+ owner +:+ "/" +:+ repo)].
Proof.
  intros Ho Hr Hlk Hb.
  pose proof (is_name_inv _ Ho) as (Hone & Hos & Hoa & Hoh).
  pose proof (is_name_inv _ Hr) as (Hrne & Hrs & Hra & Hrh).
  split.
  - rewrite resolve_unmarked by now apply owner_repo_no.
    change ("/" +:+ repo) with (String "/" repo).
    rewrite (owner_repo_parts _ _ Ho Hr). unfold bind. rewrite Hlk, Hb. reflexivity.
  - pose proof (lookup_trace E owner repo t) as Htr. now rewrite Hlk in Htr.
Qed.

Lemma bare_owner_repo_reaches_lookup_witness :
  _convert_github_path_to_raw_url env_main "owner/repo" []
  = (inl (ValueError "No file path specified"),
     [EvUrlopen "https://api.github.com/repos/owner/repo"]).
Proof.
  apply (bare_owner_repo_reaches_lookup env_main "owner" "repo" "main" []
           [EvUrlopen "https://api.github.com/repos/owner/repo"]);
    reflexivity.
Defined.

(** C4: for [owner/repo@branch#path] with a path ending in [.ipynb] the
    resolver returns the raw-content URL with exactly that branch and path
    and leaves the trace untouched (no lookup).  The branch may contain
    '/' and '@', the path may contain '/', '@' and '#': each of the two
    splits cuts at the first occurrence of its delimiter only. *)
Theorem explicit_branch_and_path (E : Env) owner repo branch fp t :
  is_name owner = true -> is_name repo = true ->
  contains "#" branch = false ->
  endswith fp ".ipynb" = true ->
  _convert_github_path_to_raw_url E
    (owner +:+ "/" +:+ repo +:+ "@" +:+ branch +:+ "#" +:+ fp) t
  = (inr ("https://raw.githubusercontent.com/" +:+ owner +:+ "/" +:+ repo
            +:+ "/" +:+ branch +:+ "/" +:+ fp), t).
Proof.
  intros Ho Hr Hb Hsuf. rewrite (resolve_explicit E _ _ _ _ t Ho Hr Hb), Hsuf.
  reflexivity.
Qed.

Lemma explicit_branch_and_path_witness :
  _convert_github_path_to_raw_url env_main
    "owner/repo@feature/new@v2#docs/a#b/notebook.ipynb" []
  = (inr "https://raw.githubusercontent.com/owner/repo/feature/new@v2/docs/a#b/notebook.ipynb",
     []).
Proof.
  apply (explicit_branch_and_path env_main "owner" "repo" "feature/new@v2"
           "docs/a#b/notebook.ipynb" []); reflexivity.
Defined.

(** The fallback split of step 5 cuts [b/p] at its first '/'. *)
Lemma branch_string_split b p :
  contains "/" b = false ->
  contains "/" (b +:+ "/" +:+ p) = true /\
  split1 "/" (b +:+ "/" +:+ p) = [b; p].
Proof.
  intros Hbs. split.
  - rewrite contains_app. cbn [String.append contains]. apply orb_true_r.
  - change ("/" +:+ p) with (String "/" p). now apply split1_first.
Qed.

Lemma branch_string_no_hash b p :
  contains "#" b = false -> contains "#" p = false ->
  contains "#" (b +:+ "/" +:+ p) = false.
Proof.
  intros Hb Hp. rewrite contains_app. cbn [String.append contains].
  now rewrite Hb, Hp.
Qed.

(** C5, the claim as stated fails: with an explicit '@' part, no '#' and a
    '/' in the branch string, the resolver may still build no URL.  Here the
    file path after the first '/' is [README.md], and the suffix check
    rejects it. *)
Lemma fallback_split_counterexample :
  contains "@" "owner/repo@main/README.md" = true /\
  contains "#" "owner/repo@main/README.md" = false /\
  contains "/" "main/README.md" = true /\
  _convert_github_path_to_raw_url env_main "owner/repo@main/README.md" []
  = (inl (ValueError "Path must end with .ipynb"), []).
Proof. repeat split; reflexivity. Qed.

(** C5 (amended): for [owner/repo@b/p] without '#', where [b] has no '/',
    the resolver takes [b] (all before the first '/' of the branch string)
    as the branch and [p] (all after it) as the file path, without any
    lookup.  When [p] ends with [.ipynb] it returns the URL built from the
    two pieces; otherwise it fails with the suffix error. *)
Theorem fallback_split (E : Env) owner repo b p t :
  is_name owner = true -> is_name repo = true ->
  contains "/" b = false ->
  contains "#" b = false -> contains "#" p = false ->
  _convert_github_path_to_raw_url E
    (owner +:+ "/" +:+ repo +:+ "@" +:+ b +:+ "/" +:+ p) t
  = (if endswith p ".ipynb"
     then inr ("https://raw.githubusercontent.com/" +:+ owner +:+ "/" +:+ repo
                 +:+ "/" +:+ b +:+ "/" +:+ p)
     else inl (ValueError "Path must end with .ipynb"), t).
Proof.
  intros Ho Hr Hbs Hbh Hph.
  rewrite (resolve_at_only E _ _ _ t Ho Hr (branch_string_no_hash b p Hbh Hph)).
  destruct (branch_string_split b p Hbs) as [-> ->].
  cbv beta iota zeta delta [bind ret raise unpack2].
  destruct (endswith p ".ipynb"); reflexivity.
Qed.

Lemma fallback_split_witness :
  _convert_github_path_to_raw_url env_main "owner/repo@feature/branch/nb.ipynb" []
  = (inr "https://raw.githubusercontent.com/owner/repo/feature/branch/nb.ipynb", []).
Proof.
  apply (fallback_split env_main "owner" "repo" "feature" "branch/nb.ipynb" []);
    reflexivity.
Defined.

(** C6: [owner/repo@branch] with no '#' and no '/' in the branch fails with
    "No file path specified"; no URL is produced and nothing is looked up. *)
Theorem branch_without_path_fails (E : Env) owner repo branch t :
  is_name owner = true -> is_name repo = true ->
  contains "#" branch = false -> contains "/" branch = false ->
  _convert_github_path_to_raw_url E (owner +:+ "/" +:+ repo +:+ "@" +:+ branch) t
  = (inl (ValueError "No file path specified"), t).
Proof.
  intros Ho Hr Hbh Hbs. rewrite (resolve_at_only E _ _ _ t Ho Hr Hbh), Hbs.
  reflexivity.
Qed.

Lemma branch_without_path_fails_witness :
  _convert_github_path_to_raw_url env_main "owner/repo@branch" []
  = (inl (ValueError "No file path specified"), []).
Proof.
  apply (branch_without_path_fails env_main "owner" "repo" "branch" []); reflexivity.
Defined.

(** The resolver is the steps of [resolved_parts] followed by the suffix
    check on the file path they give and by the URL template. *)
Lemma resolver_checks_parts (E : Env) path t :
  _convert_github_path_to_raw_url E path t
  = bind (resolved_parts E path)
      (fun '(owner, repo, branch, file_path) =>
         if negb (endswith file_path ".ipynb")
         then raise (ValueError "Path must end with .ipynb")
         else ret ("https://raw.githubusercontent.com/" +:+ owner +:+ "/" +:+ repo
                     +:+ "/" +:+ branch +:+ "/" +:+ file_path)) t.
Proof.
  cbv beta zeta delta [_convert_github_path_to_raw_url resolved_parts].
  generalize (if (1 <? length (split1 "#" path))%nat
              then nth_error (split1 "#" path) 1 else None) as file_path.
  generalize (nth 0 (split1 "#" path) EmptyString) as repo_part.
  intros repo_part file_path.
  cbv beta iota zeta delta [bind ret raise unpack2 lift].
  repeat match goal with
         | |- context [match ?x with _ => _ end] => destruct x
         | |- context [if ?x then _ else _] => destruct x
         end; reflexivity.
Qed.

(** The parts the resolver arrives at for [owner/repo@b/p]. *)
Lemma resolved_parts_at (E : Env) owner repo b p t :
  is_name owner = true -> is_name repo = true ->
  contains "/" b = false -> contains "#" b = false -> contains "#" p = false ->
  resolved_parts E (owner +:+ "/" +:+ repo +:+ "@" +:+ b +:+ "/" +:+ p) t
  = (inr (owner, repo, b, p), t).
Proof.
  intros Ho Hr Hbs Hbh Hph.
  pose proof (is_name_inv _ Ho) as (Hone & Hos & Hoa & Hoh).
  pose proof (is_name_inv _ Hr) as (Hrne & Hrs & Hra & Hrh).
  assert (Hri_at : contains "@" (owner +:+ String "/" repo) = false)
    by now apply owner_repo_no.
  assert (Hri_hash : contains "#" (owner +:+ String "/" repo) = false)
    by now apply owner_repo_no.
  set (rest := b +:+ "/" +:+ p).
  set (repo_part := (owner +:+ String "/" repo) +:+ String "@" rest).
  assert (Hshape : owner +:+ "/" +:+ repo +:+ "@" +:+ rest = repo_part).
  { unfold repo_part. rewrite !str_app_assoc. reflexivity. }
  assert (Hrp : contains "#" repo_part = false).
  { unfold repo_part, rest. rewrite contains_app. cbn [contains].
    now rewrite Hri_hash, (branch_string_no_hash b p Hbh Hph). }
  assert (Hat : contains "@" repo_part = true).
  { unfold repo_part. rewrite contains_app. cbn [contains]. apply orb_true_r. }
  cbv beta zeta delta [resolved_parts].
  rewrite Hshape, (split1_absent _ _ Hrp). cbn [nth nth_error length Nat.ltb Nat.leb].
  rewrite Hat. unfold repo_part at 1. rewrite (split1_first _ _ _ Hri_at).
  cbv beta iota zeta delta [bind ret raise unpack2 lift].
  rewrite (owner_repo_parts _ _ Ho Hr). cbn [length Nat.eqb negb].
  cbv beta iota zeta delta [bind ret raise unpack2 lift].
  unfold rest. destruct (branch_string_split b p Hbs) as [-> ->].
  reflexivity.
Qed.

(** The parts the resolver arrives at for the bare [owner/repo] when the
    lookup answers [b/p]. *)
Lemma resolved_parts_bare (E : Env) owner repo b p t t' :
  is_name owner = true -> is_name repo = true ->
  _get_default_branch E owner repo t = (inr (b +:+ "/" +:+ p), t') ->
  contains "/" b = false ->
  resolved_parts E (owner +:+ "/" +:+ repo) t = (inr (owner, repo, b, p), t').
Proof.
  intros Ho Hr Hlk Hbs.
  pose proof (is_name_inv _ Ho) as (Hone & Hos & Hoa & Hoh).
  pose proof (is_name_inv _ Hr) as (Hrne & Hrs & Hra & Hrh).
  assert (Hri_at : contains "@" (owner +:+ String "/" repo) = false)
    by now apply owner_repo_no.
  assert (Hri_hash : contains "#" (owner +:+ String "/" repo) = false)
    by now apply owner_repo_no.
  change (owner +:+ "/" +:+ repo) with (owner +:+ String "/" repo).
  cbv beta zeta delta [resolved_parts].
  rewrite (split1_absent _ _ Hri_hash). cbn [nth nth_error length Nat.ltb Nat.leb].
  rewrite Hri_at.
  cbv beta iota zeta delta [bind ret raise unpack2 lift].
  rewrite (owner_repo_parts _ _ Ho Hr). cbn [length Nat.eqb negb].
  cbv beta iota zeta delta [bind ret raise unpack2 lift].
  rewrite Hlk. destruct (branch_string_split b p Hbs) as [-> ->].
  reflexivity.
Qed.

(** C7: whenever the resolver arrives at a file path that does not end with
    [.ipynb], it fails with "Path must end with .ipynb", whichever way it
    came to that path.  The first part says so for every input, with the
    trace the earlier steps left.  The other parts name the file path for
    each way of arriving at one and give the outcome: a path after '#'
    with an explicit branch; a path after '#' with a looked-up branch (the
    resolver ends with the lookup's exception when the lookup raises, and
    with the suffix error when it answers); a path cut out of an explicit
    branch string by the fallback split, and one cut out of a looked-up
    branch.  In the last two the check is applied to what follows the
    first '/', so it runs after the split. *)
Theorem suffix_check (E : Env) :
  (forall path t owner repo branch fp t',
     resolved_parts E path t = (inr (owner, repo, branch, fp), t') ->
     endswith fp ".ipynb" = false ->
     _convert_github_path_to_raw_url E path t
     = (inl (ValueError "Path must end with .ipynb"), t'))
  /\ (forall owner repo t,
        is_name owner = true -> is_name repo = true ->
        (forall branch fp,
           contains "#" branch = false -> endswith fp ".ipynb" = false ->
           _convert_github_path_to_raw_url E
             (owner +:+ "/" +:+ repo +:+ "@" +:+ branch +:+ "#" +:+ fp) t
           = (inl (ValueError "Path must end with .ipynb"), t))
        /\ (forall fp,
              endswith fp ".ipynb" = false ->
              _convert_github_path_to_raw_url E (owner +:+ "/" +:+ repo +:+ "#" +:+ fp) t
              = match _get_default_branch E owner repo t with
                | (inl e, t') => (inl e, t')
                | (inr _, t') => (inl (ValueError "Path must end with .ipynb"), t')
                end)
        /\ (forall b p,
              contains "/" b = false -> contains "#" b = false ->
              contains "#" p = false -> endswith p ".ipynb" = false ->
              resolved_parts E (owner +:+ "/" +:+ repo +:+ "@" +:+ b +:+ "/" +:+ p) t
              = (inr (owner, repo, b, p), t)
              /\ _convert_github_path_to_raw_url E
                   (owner +:+ "/" +:+ repo +:+ "@" +:+ b +:+ "/" +:+ p) t
                 = (inl (ValueError "Path must end with .ipynb"), t))
        /\ (forall b p t',
              _get_default_branch E owner repo t = (inr (b +:+ "/" +:+ p), t') ->
              contains "/" b = false -> endswith p ".ipynb" = false ->
              resolved_parts E (owner +:+ "/" +:+ repo) t = (inr (owner, repo, b, p), t')
              /\ _convert_github_path_to_raw_url E (owner +:+ "/" +:+ repo) t
                 = (inl (ValueError "Path must end with .ipynb"), t'))).
Proof.
  assert (Hgen : forall path t owner repo branch fp t',
             resolved_parts E path t = (inr (owner, repo, branch, fp), t') ->
             endswith fp ".ipynb" = false ->
             _convert_github_path_to_raw_url E path t
             = (inl (ValueError "Path must end with .ipynb"), t')).
  { intros path t owner repo branch fp t' Hparts Hsuf.
    rewrite resolver_checks_parts. unfold bind. rewrite Hparts, Hsuf. reflexivity. }
  split; [exact Hgen|].
  intros owner repo t Ho Hr.
  pose proof (is_name_inv _ Ho) as (Hone & Hos & Hoa & Hoh).
  pose proof (is_name_inv _ Hr) as (Hrne & Hrs & Hra & Hrh).
  split; [|split; [|split]].
  - intros branch fp Hb Hsuf.
    rewrite (resolve_explicit E _ _ _ _ t Ho Hr Hb), Hsuf. reflexivity.
  - intros fp Hsuf.
    rewrite (resolve_hash_only E _ _ _ t Ho Hr). unfold bind.
    destruct (_get_default_branch E owner repo t) as [[e|br] t']; [reflexivity|].
    rewrite Hsuf. reflexivity.
  - intros b p Hbs Hbh Hph Hsuf.
    pose proof (resolved_parts_at E owner repo b p t Ho Hr Hbs Hbh Hph) as Hparts.
    split; [exact Hparts | exact (Hgen _ _ _ _ _ _ _ Hparts Hsuf)].
  - intros b p t' Hlk Hbs Hsuf.
    pose proof (resolved_parts_bare E owner repo b p t t' Ho Hr Hlk Hbs) as Hparts.
    split; [exact Hparts | exact (Hgen _ _ _ _ _ _ _ Hparts Hsuf)].
Qed.

Lemma suffix_check_witness :
  _convert_github_path_to_raw_url env_main "///owner/repo/@dev#notes.md" []
  = (inl (ValueError "Path must end with .ipynb"), [])
  /\ _convert_github_path_to_raw_url env_main "owner/repo@branch#path/notebook.txt" []
     = (inl (ValueError "Path must end with .ipynb"), [])
  /\ _convert_github_path_to_raw_url env_main "owner/repo#notes.txt" []
     = (inl (ValueError "Path must end with .ipynb"),
        [EvUrlopen "https://api.github.com/repos/owner/repo"])
  /\ _convert_github_path_to_raw_url (env_http_error 404 "Not Found")
       "owner/repo#notes.txt" []
     = (inl (ValueError "Repository owner/repo not found"),
        [EvUrlopen "https://api.github.com/repos/owner/repo"])
  /\ _convert_github_path_to_raw_url env_main "owner/repo@main.ipynb/README.md" []
     = (inl (ValueError "Path must end with .ipynb"), [])
  /\ _convert_github_path_to_raw_url (env_branch "release/v1") "owner/repo" []
     = (inl (ValueError "Path must end with .ipynb"),
        [EvUrlopen "https://api.github.com/repos/owner/repo"]).
Proof.
  destruct (suffix_check env_main) as [Hgen Hforms].
  destruct (Hforms "owner" "repo" [] eq_refl eq_refl) as (H1 & H2 & H3 & _).
  destruct (suffix_check (env_http_error 404 "Not Found")) as [_ Hforms404].
  destruct (Hforms404 "owner" "repo" [] eq_refl eq_refl) as (_ & H2' & _).
  destruct (suffix_check (env_branch "release/v1")) as [_ Hformsb].
  destruct (Hformsb "owner" "repo" [] eq_refl eq_refl) as (_ & _ & _ & H4).
  split; [|split; [|split; [|split; [|split]]]].
  - apply (Hgen "///owner/repo/@dev#notes.md" [] "owner" "repo" "dev" "notes.md" []);
      reflexivity.
  - apply (H1 "branch" "path/notebook.txt"); reflexivity.
  - apply (H2 "notes.txt"). reflexivity.
  - apply (H2' "notes.txt"). reflexivity.
  - apply (proj2 (H3 "main.ipynb" "README.md" eq_refl eq_refl eq_refl eq_refl)).
  - apply (proj2 (H4 "release" "v1" [EvUrlopen "https://api.github.com/repos/owner/repo"]
                    eq_refl eq_refl eq_refl)).
Defined.

(** * The default-branch lookup *)

(** C8: the lookup makes one request to the metadata endpoint of
    owner/repo.  When the request succeeds it returns the [default_branch]
    field of the decoded response; when the remote answers 404 it raises a
    [ValueError] whose message names owner/repo; every other exception of
    the request, an HTTP error with another status included, reaches the
    caller as it was raised. *)
Theorem default_branch_lookup (E : Env) owner repo t :
  let url := "https://api.github.com/repos/" +:+ owner +:+ "/" +:+ repo in
  (forall body data branch,
     urlopen_read E url = inr body -> json_loads E body = inr data ->
     data !! "default_branch" = Some branch ->
     _get_default_branch E owner repo t = (inr branch, t ++ [EvUrlopen url]))
  /\ (forall reason,
        urlopen_read E url = inl (HTTPError 404 reason) ->
        _get_default_branch E owner repo t
        = (inl (ValueError ("Repository " +:+ owner +:+ "/" +:+ repo +:+ " not found")),
           t ++ [EvUrlopen url]))
  /\ (forall e,
        urlopen_read E url = inl e ->
        (forall reason, e <> HTTPError 404 reason) ->
        _get_default_branch E owner repo t = (inl e, t ++ [EvUrlopen url])).
Proof.
  intros url. repeat split.
  - intros body data branch Hopen Hjson Hfield.
    unfold _get_default_branch, try_except, urlopen, bind, emit, lift, getitem.
    fold url. rewrite Hopen. cbn. rewrite Hjson. cbn. rewrite Hfield. reflexivity.
  - intros reason Hopen.
    unfold _get_default_branch, try_except, urlopen, bind, emit, lift.
    fold url. rewrite Hopen. reflexivity.
  - intros e Hopen Hne.
    unfold _get_default_branch, try_except, urlopen, bind, emit, lift.
    fold url. rewrite Hopen. cbn.
    destruct e as [| code reason | | | | |]; try reflexivity.
    destruct (code =? 404)%Z eqn:Hc; [|reflexivity].
    apply Z.eqb_eq in Hc. subst code. now destruct (Hne reason).
Qed.

Lemma default_branch_lookup_witness :
  _get_default_branch env_main "owner" "repo" []
  = (inr "main", [EvUrlopen "https://api.github.com/repos/owner/repo"])
  /\ _get_default_branch (env_http_error 404 "Not Found") "owner" "repo" []
     = (inl (ValueError "Repository owner/repo not found"),
        [EvUrlopen "https://api.github.com/repos/owner/repo"])
  /\ _get_default_branch (env_http_error 500 "Server Error") "owner" "repo" []
     = (inl (HTTPError 500 "Server Error"),
        [EvUrlopen "https://api.github.com/repos/owner/repo"]).
Proof.
  split; [|split].
  - apply (proj1 (default_branch_lookup env_main "owner" "repo" [])
             "metadata" {[ "default_branch" := "main" ]} "main"); reflexivity.
  - apply (proj1 (proj2 (default_branch_lookup (env_http_error 404 "Not Found")
                           "owner" "repo" [])) "Not Found"); reflexivity.
  - apply (proj2 (proj2 (default_branch_lookup (env_http_error 500 "Server Error")
                           "owner" "repo" [])) (HTTPError 500 "Server Error")).
    + reflexivity.
    + intros reason; discriminate.
Defined.

(** * The orchestrator *)

(** C9, the claim as stated fails: an absolute URL is a reference that
    resolves to a URL (itself), yet for this one nothing is downloaded and
    no viewer is spawned; the orchestrator stops at its suffix check. *)
Lemma fetch_and_launch_counterexample :
  startswith "https://example.com/file.txt" "https://" = true /\
  open_notebook_from_url env_main "https://example.com/file.txt" None None []
  = (inl (ValueError "URL must point to a Jupyter notebook (.ipynb file)"), []).
Proof. split; reflexivity. Qed.

(** C9 (amended): take a reference that resolves to [url] (an http/https
    reference is its own URL and the resolver is not run; any other goes
    through the shorthand resolver), let [filename] be the name of the path
    component of [url], and assume [filename] ends with [.ipynb] and the
    download succeeds.  Then the orchestrator downloads [url] to the output
    directory (the working directory when none is given) joined with
    [filename], and then runs the viewer exactly once, with the command
    [jupyter notebook <downloaded path>] followed by the pass-through
    arguments in their order; its result is that of the viewer. *)
Theorem fetch_and_launch (E : Env) ref output_dir jupyter_args url parsed t t' :
  (if startswith ref "http://" || startswith ref "https://"
   then url = ref /\ t' = t
   else _convert_github_path_to_raw_url E ref t = (inr url, t')) ->
  UrlParse.urlparse (check_netloc E) url = inr parsed ->
  let filename := Pathlib.name (Pathlib.of_str (UrlParse.path parsed)) in
  let dir := match output_dir with Some d => d | None => cwd E end in
  let dest := Pathlib.str (Pathlib.truediv dir filename) in
  let cmd := ["jupyter"; "notebook"; dest]
             ++ match jupyter_args with Some args => args | None => [] end in
  endswith filename ".ipynb" = true ->
  urlretrieve_reply E url dest = None ->
  open_notebook_from_url E ref output_dir jupyter_args t
  = (match run_reply E cmd with
     | inl e => inl e
     | inr rc => if (rc =? 0)%Z then inr tt else inl (CalledProcessError rc cmd)
     end,
     t' ++ [EvPrint ("Downloading notebook from " +:+ url);
            EvUrlretrieve url dest;
            EvPrint ("Opening notebook " +:+ dest);
            EvRun cmd]).
Proof.
  intros Hres Hparse filename dir dest cmd Hsuf Hdl.
  assert (Hcmd : match jupyter_args with
                 | Some (a :: l) => ["jupyter"; "notebook"; dest] ++ a :: l
                 | _ => ["jupyter"; "notebook"; dest]
                 end = cmd).
  { unfold cmd. destruct jupyter_args as [[|a l]|]; reflexivity. }
  assert (Hfirst : (if negb (startswith ref "http://" || startswith ref "https://")
                    then _convert_github_path_to_raw_url E ref
                    else ret ref) t = (inr url, t')).
  { destruct (startswith ref "http://" || startswith ref "https://"); cbn [negb].
    - destruct Hres as [-> ->]. reflexivity.
    - exact Hres. }
  unfold open_notebook_from_url.
  unfold bind at 1. rewrite Hfirst.
  unfold bind at 1. rewrite Hparse. cbn [lift ret].
  fold filename. rewrite Hsuf. cbn [negb]. fold dir.
  unfold urlretrieve, subprocess_run, bind, emit. fold dest. rewrite Hdl, Hcmd.
  cbn [ret]. rewrite <- !app_assoc. cbn [app].
  destruct (run_reply E cmd) as [e|rc]; [reflexivity|].
  destruct (rc =? 0)%Z; reflexivity.
Qed.

Lemma fetch_and_launch_witness :
  open_notebook_from_url env_main "https://example.com/notebook.ipynb" None
    (Some ["--port"; "8888"]) []
  = (inr tt,
     [EvPrint "Downloading notebook from https://example.com/notebook.ipynb";
      EvUrlretrieve "https://example.com/notebook.ipynb" "/home/user/notebook.ipynb";
      EvPrint "Opening notebook /home/user/notebook.ipynb";
      EvRun ["jupyter"; "notebook"; "/home/user/notebook.ipynb"; "--port"; "8888"]])
  /\ open_notebook_from_url env_main "owner/repo@dev#docs/intro.ipynb"
       (Some (Pathlib.of_str "notebooks")) None []
     = (inr tt,
        [EvPrint "Downloading notebook from https://raw.githubusercontent.com/owner/repo/dev/docs/intro.ipynb";
         EvUrlretrieve "https://raw.githubusercontent.com/owner/repo/dev/docs/intro.ipynb"
           "notebooks/intro.ipynb";
         EvPrint "Opening notebook notebooks/intro.ipynb";
         EvRun ["jupyter"; "notebook"; "notebooks/intro.ipynb"]]).
Proof.
  split.
  - apply (fetch_and_launch env_main "https://example.com/notebook.ipynb" None
            (Some ["--port"; "8888"]) "https://example.com/notebook.ipynb"
            {| UrlParse.scheme := "https"; UrlParse.netloc := "example.com";
               UrlParse.path := "/notebook.ipynb"; UrlParse.params := EmptyString;
               UrlParse.query := EmptyString; UrlParse.fragment := EmptyString |}
            [] []).
    + split; reflexivity.
    + reflexivity.
    + reflexivity.
    + reflexivity.
  - apply (fetch_and_launch env_main "owner/repo@dev#docs/intro.ipynb"
            (Some (Pathlib.of_str "notebooks")) None
            "https://raw.githubusercontent.com/owner/repo/dev/docs/intro.ipynb"
            {| UrlParse.scheme := "https"; UrlParse.netloc := "raw.githubusercontent.com";
               UrlParse.path := "/owner/repo/dev/docs/intro.ipynb";
               UrlParse.params := EmptyString;
               UrlParse.query := EmptyString; UrlParse.fragment := EmptyString |}
            [] []).
    + reflexivity.
    + reflexivity.
    + reflexivity.
    + reflexivity.
Defined.

(** * What the orchestrator makes of a resolved URL *)

Lemma endswith_cons x s suffix :
  endswith s suffix = true -> endswith (String x s) suffix = true.
Proof. intros H. cbn [endswith]. rewrite H. apply orb_true_r. Qed.

Lemma endswith_app_l a s suffix :
  endswith s suffix = true -> endswith (a +:+ s) suffix = true.
Proof.
  intros H. induction a as [|x a IH]; [exact H|].
  change (String x a +:+ s) with (String x (a +:+ s)).
  now apply endswith_cons.
Qed.

(** A URL the resolver returns is the raw-content prefix followed by a text
    that ends with [.ipynb]. *)
Lemma resolver_success_shape (E : Env) path t url t' :
  _convert_github_path_to_raw_url E path t = (inr url, t') ->
  exists rest,
    url = "https://raw.githubusercontent.com/" +:+ rest /\
    endswith rest ".ipynb" = true.
Proof.
  cbv beta zeta delta [_convert_github_path_to_raw_url].
  generalize (nth 0 (split1 "#" path) EmptyString) as repo_part.
  generalize (if (1 <? length (split1 "#" path))%nat
              then nth_error (split1 "#" path) 1 else None) as file_path.
  intros file_path repo_part H.
  cbv beta iota zeta delta [bind ret raise unpack2 lift] in H.
  repeat match type of H with
         | context [match ?x with _ => _ end] => destruct x eqn:?; try discriminate
         | context [if ?x then _ else _] => destruct x eqn:?; try discriminate
         end.
  injection H as <- <-.
  match goal with
  | Hsuf : negb (endswith ?fp ".ipynb") = false |- _ =>
      apply negb_false_iff in Hsuf; rename Hsuf into Hfp
  end.
  eexists. split; [simpl; reflexivity|].
  repeat (apply endswith_app_l || apply endswith_cons). exact Hfp.
Qed.

Lemma filter_app f a b : filter f (a +:+ b) = filter f a +:+ filter f b.
Proof.
  induction a as [|x a IH]; [reflexivity|].
  change (String x a +:+ b) with (String x (a +:+ b)).
  cbn [filter]. rewrite IH. destruct (f x); reflexivity.
Qed.

Lemma filter_contains f c s :
  contains c s = false -> contains c (filter f s) = false.
Proof.
  induction s as [|x s IH]; [reflexivity|].
  cbn [contains filter]. intros [Hx Hs]%orb_false_elim.
  destruct (f x); cbn [contains]; rewrite ?Hx; auto.
Qed.

Lemma cut_absent c s : contains c s = false -> UrlParse.cut c s = (s, EmptyString).
Proof. intros H. unfold UrlParse.cut. now rewrite (split1_absent _ _ H). Qed.

(** [urlparse] on a URL of the raw-content host whose remainder has no
    fragment, query or parameter delimiter: the path is the remainder, less
    the tabs and line breaks the parser drops. *)
Lemma urlparse_raw chk rest :
  contains "#" rest = false -> contains "?" rest = false ->
  contains ";" rest = false ->
  UrlParse.urlparse chk ("https://raw.githubusercontent.com/" +:+ rest)
  = inr {| UrlParse.scheme := "https";
           UrlParse.netloc := "raw.githubusercontent.com";
           UrlParse.path :=
             String "/" (filter (fun c => negb (UrlParse._UNSAFE_URL_BYTES_TO_REMOVE c)) rest);
           UrlParse.params := EmptyString;
           UrlParse.query := EmptyString;
           UrlParse.fragment := EmptyString |}.
Proof.
  intros Hh Hq Hs.
  set (safe := fun c => negb (UrlParse._UNSAFE_URL_BYTES_TO_REMOVE c)).
  pose proof (filter_contains safe _ _ Hh) as Hh'.
  pose proof (filter_contains safe _ _ Hq) as Hq'.
  pose proof (filter_contains safe _ _ Hs) as Hs'.
  cbv beta zeta delta [UrlParse.urlparse]. fold safe.
  change (UrlParse.lstrip_chars UrlParse._WHATWG_C0_CONTROL_OR_SPACE
            ("https://raw.githubusercontent.com/" +:+ rest))
    with ("https://raw.githubusercontent.com/" +:+ rest).
  rewrite filter_app.
  change (filter safe "https://raw.githubusercontent.com/")
    with ("https" +:+ String ":" "//raw.githubusercontent.com/").
  rewrite str_app_assoc.
  generalize (filter safe rest) Hh' Hq' Hs'. clear. intros r Hh Hq Hs.
  unfold UrlParse.split_scheme.
  change (String ":" "//raw.githubusercontent.com/" +:+ r)
    with (String ":" ("//raw.githubusercontent.com/" +:+ r)).
  rewrite split1_first by reflexivity.
  change (UrlParse.isalpha "h" &&
          forallb (fun c => contains c UrlParse.scheme_chars) "https") with true.
  cbv iota.
  change (map UrlParse.lower_char "https") with "https".
  change ("//raw.githubusercontent.com/" +:+ r)
    with (String "/" (String "/" ("raw.githubusercontent.com" +:+ String "/" r))).
  cbv iota beta.
  change (UrlParse._splitnetloc ("raw.githubusercontent.com" +:+ String "/" r))
    with ("raw.githubusercontent.com", String "/" r).
  cbv iota beta.
  change (UrlParse.validate_netloc chk "raw.githubusercontent.com") with (@None exn).
  cbv iota beta.
  assert (Hh1 : contains "#" (String "/" r) = false) by (cbn [contains]; now rewrite Hh).
  assert (Hq1 : contains "?" (String "/" r) = false) by (cbn [contains]; now rewrite Hq).
  assert (Hs1 : contains ";" (String "/" r) = false) by (cbn [contains]; now rewrite Hs).
  rewrite (cut_absent _ _ Hh1). cbv iota beta.
  rewrite (cut_absent _ _ Hq1). cbv iota beta.
  rewrite Hs1, andb_false_r. reflexivity.
Qed.

Lemma split_app_suffix c x suffix :
  contains c suffix = false ->
  exists l y, split c (x +:+ suffix) = l ++ [y +:+ suffix].
Proof.
  intros Hc. induction x as [|a x (l & y & IH)].
  - exists [], EmptyString. cbn [String.append app]. now apply split_absent.
  - change (String a x +:+ suffix) with (String a (x +:+ suffix)).
    cbn [split]. rewrite IH. destruct (Ascii.eqb a c).
    + exists (EmptyString :: l), y. reflexivity.
    + destruct l as [|h l]; cbn [app].
      * exists [], (String a y). reflexivity.
      * exists (String a h :: l), y. reflexivity.
Qed.

Lemma last_segment_suffix s :
  endswith s ".ipynb" = true ->
  endswith (List.last (split "/" s) EmptyString) ".ipynb" = true.
Proof.
  intros [x ->]%endswith_inv.
  destruct (split_app_suffix "/" x ".ipynb" eq_refl) as (l & y & ->).
  rewrite last_last. apply endswith_app.
Qed.

Lemma ipynb_is_component y : Pathlib.is_component (y +:+ ".ipynb") = true.
Proof.
  unfold Pathlib.is_component.
  destruct y as [|a [|b y]]; cbn; try destruct (Ascii.eqb a "."); reflexivity.
Qed.

Lemma last_component_suffix s :
  endswith s ".ipynb" = true ->
  endswith (List.last (List.filter Pathlib.is_component (split "/" s)) EmptyString)
    ".ipynb" = true.
Proof.
  intros [x ->]%endswith_inv.
  destruct (split_app_suffix "/" x ".ipynb" eq_refl) as (l & y & ->).
  rewrite List.filter_app. cbn [List.filter]. rewrite ipynb_is_component.
  rewrite last_last. apply endswith_app.
Qed.

Lemma endswith_lstrip s :
  endswith s ".ipynb" = true -> endswith (lstrip "/" s) ".ipynb" = true.
Proof.
  induction s as [|a s IH]; [discriminate|].
  cbn [lstrip]. destruct (Ascii.eqb a "/") eqn:Ha; [|auto].
  apply Ascii.eqb_eq in Ha. subst a.
  cbn [endswith]. intros [H|H]%orb_true_iff; [discriminate H | auto].
Qed.

Lemma endswith_filter f s :
  filter f ".ipynb" = ".ipynb" ->
  endswith s ".ipynb" = true -> endswith (filter f s) ".ipynb" = true.
Proof.
  intros Hf [x ->]%endswith_inv. rewrite filter_app, Hf. apply endswith_app.
Qed.

(** The name of an absolute path that ends with [.ipynb]. *)
Lemma path_name_suffix s :
  endswith s ".ipynb" = true ->
  endswith (Pathlib.name (Pathlib.of_str (String "/" s))) ".ipynb" = true.
Proof.
  intros Hs. unfold Pathlib.name, Pathlib.of_str, Pathlib.splitroot.
  cbv iota beta. cbn [lstrip Ascii.eqb Bool.eqb]. cbv iota beta zeta.
  destruct (_ =? 2)%nat; cbn [Pathlib.parts];
    now apply last_component_suffix, endswith_lstrip.
Qed.

(** C10, the claim as stated fails: the resolver accepts a file path with a
    second '#' and returns a URL whose path component, as the orchestrator
    parses it, stops at that '#'.  The extracted filename is [a], and the
    orchestrator's own suffix check raises for a URL the resolver produced. *)
Lemma resolved_url_filename_counterexample :
  _convert_github_path_to_raw_url env_main "owner/repo@main#a#b.ipynb" []
  = (inr "https://raw.githubusercontent.com/owner/repo/main/a#b.ipynb", [])
  /\ open_notebook_from_url env_main "owner/repo@main#a#b.ipynb" None None []
     = (inl (ValueError "URL must point to a Jupyter notebook (.ipynb file)"), []).
Proof. split; reflexivity. Qed.

(** C10 (amended): whenever the resolver returns a URL, the final
    '/'-separated segment of that URL, taken as a string, ends with
    [.ipynb].  When the URL moreover contains none of '#', '?' and ';',
    [urlparse] succeeds on it and the filename the orchestrator extracts
    from its path component ends with [.ipynb], so the orchestrator's own
    suffix check passes. *)
Theorem resolved_url_filename (E : Env) path t url t' :
  _convert_github_path_to_raw_url E path t = (inr url, t') ->
  endswith (List.last (split "/" url) EmptyString) ".ipynb" = true
  /\ (contains "#" url = false -> contains "?" url = false ->
      contains ";" url = false ->
      exists parsed,
        UrlParse.urlparse (check_netloc E) url = inr parsed /\
        endswith (Pathlib.name (Pathlib.of_str (UrlParse.path parsed))) ".ipynb" = true).
Proof.
  intros (rest & -> & Hsuf)%resolver_success_shape. split.
  - apply last_segment_suffix, endswith_app_l, Hsuf.
  - rewrite !contains_app.
    intros [_ Hh]%orb_false_elim [_ Hq]%orb_false_elim [_ Hs]%orb_false_elim.
    eexists. split; [apply (urlparse_raw _ _ Hh Hq Hs)|].
    cbn [UrlParse.path]. apply path_name_suffix.
    now apply endswith_filter.
Qed.

Lemma resolved_url_filename_witness :
  endswith
    (List.last
       (split "/" "https://raw.githubusercontent.com/owner/repo/dev/docs/intro.ipynb")
       EmptyString) ".ipynb" = true
  /\ exists parsed,
       UrlParse.urlparse (check_netloc env_main)
         "https://raw.githubusercontent.com/owner/repo/dev/docs/intro.ipynb" = inr parsed /\
       endswith (Pathlib.name (Pathlib.of_str (UrlParse.path parsed))) ".ipynb" = true.
Proof.
  destruct (resolved_url_filename env_main "owner/repo@dev#docs/intro.ipynb" []
              "https://raw.githubusercontent.com/owner/repo/dev/docs/intro.ipynb" []
              eq_refl) as [H1 H2].
  split; [exact H1|]. apply H2; reflexivity.
Defined.

(** * Further properties of the resolver *)

(** [info@branch#path] and [info@rest] for any text [info] in front of the
    '@': the answer hangs on how [info] splits into components. *)
Lemma resolve_marked (E : Env) info branch t :
  contains "@" info = false -> contains "#" info = false ->
  contains "#" branch = false ->
  (forall fp,
     _convert_github_path_to_raw_url E (info +:+ "@" +:+ branch +:+ "#" +:+ fp) t
     = match split "/" (strip "/" info) with
       | [owner; repo] =>
           (if endswith fp ".ipynb"
            then inr ("https://raw.githubusercontent.com/" +:+ owner +:+ "/" +:+ repo
                        +:+ "/" +:+ branch +:+ "/" +:+ fp)
            else inl (ValueError "Path must end with .ipynb"), t)
       | _ => (inl (ValueError "Repository path must be in format: owner/repository"), t)
       end)
  /\ (length (split "/" (strip "/" info)) <> 2%nat ->
      _convert_github_path_to_raw_url E (info +:+ "@" +:+ branch) t
      = (inl (ValueError "Repository path must be in format: owner/repository"), t)).
Proof.
  intros Hat Hhash Hb.
  assert (Hrp : contains "#" (info +:+ String "@" branch) = false).
  { rewrite contains_app. cbn [contains]. now rewrite Hhash, Hb. }
  assert (Hat' : contains "@" (info +:+ String "@" branch) = true).
  { rewrite contains_app. cbn [contains]. apply orb_true_r. }
  split.
  - intros fp.
    assert (Hshape : info +:+ "@" +:+ branch +:+ "#" +:+ fp
                     = (info +:+ String "@" branch) +:+ String "#" fp).
    { rewrite !str_app_assoc. reflexivity. }
    cbv beta zeta delta [_convert_github_path_to_raw_url].
    rewrite Hshape, (split1_first _ _ _ Hrp). cbn [nth nth_error length Nat.ltb Nat.leb].
    rewrite Hat', (split1_first _ _ _ Hat).
    cbv beta iota zeta delta [bind ret raise unpack2 lift].
    destruct (split "/" (strip "/" info)) as [|o [|r [|? ?]]]; try reflexivity.
    cbn [length Nat.eqb negb]. cbv beta iota zeta delta [bind ret raise unpack2 lift].
    destruct (endswith fp ".ipynb"); reflexivity.
  - intros Hlen.
    change (info +:+ "@" +:+ branch) with (info +:+ String "@" branch).
    cbv beta zeta delta [_convert_github_path_to_raw_url].
    rewrite (split1_absent _ _ Hrp). cbn [nth nth_error length Nat.ltb Nat.leb].
    rewrite Hat', (split1_first _ _ _ Hat).
    cbv beta iota zeta delta [bind ret raise unpack2 lift].
    destruct (split "/" (strip "/" info)) as [|o [|r [|? ?]]]; try reflexivity.
    now destruct Hlen.
Qed.

(** X1: with an explicit branch, a part in front of the '@' that does not
    split into exactly two components is rejected with the owner/repository
    format error, whatever the branch and the file path are (a path with a
    wrong suffix included) and without any lookup. *)
Theorem malformed_owner_repo_is_rejected (E : Env) info branch t :
  contains "@" info = false -> contains "#" info = false ->
  contains "#" branch = false ->
  length (split "/" (strip "/" info)) <> 2%nat ->
  (forall fp,
     _convert_github_path_to_raw_url E (info +:+ "@" +:+ branch +:+ "#" +:+ fp) t
     = (inl (ValueError "Repository path must be in format: owner/repository"), t))
  /\ _convert_github_path_to_raw_url E (info +:+ "@" +:+ branch) t
     = (inl (ValueError "Repository path must be in format: owner/repository"), t).
Proof.
  intros Hat Hhash Hb Hlen.
  destruct (resolve_marked E info branch t Hat Hhash Hb) as [Hfp Hnone].
  split; [|now apply Hnone].
  intros fp. rewrite Hfp.
  destruct (split "/" (strip "/" info)) as [|o [|r [|? ?]]]; try reflexivity.
  now destruct Hlen.
Qed.

Lemma malformed_owner_repo_is_rejected_witness :
  _convert_github_path_to_raw_url env_main "invalid@branch#notebook.ipynb" []
  = (inl (ValueError "Repository path must be in format: owner/repository"), [])
  /\ _convert_github_path_to_raw_url env_main "/repo@branch#notes.txt" []
     = (inl (ValueError "Repository path must be in format: owner/repository"), [])
  /\ _convert_github_path_to_raw_url env_main "a/b/c@branch" []
     = (inl (ValueError "Repository path must be in format: owner/repository"), []).
Proof.
  split; [|split].
  - apply (proj1 (malformed_owner_repo_is_rejected env_main "invalid" "branch" []
                    eq_refl eq_refl eq_refl ltac:(discriminate)) "notebook.ipynb").
  - apply (proj1 (malformed_owner_repo_is_rejected env_main "/repo" "branch" []
                    eq_refl eq_refl eq_refl ltac:(discriminate)) "notes.txt").
  - apply (proj2 (malformed_owner_repo_is_rejected env_main "a/b/c" "branch" []
                    eq_refl eq_refl eq_refl ltac:(discriminate))).
Defined.

(** X2: [owner/repo#path] with a path ending in [.ipynb] resolves on the
    default branch: when the lookup answers [branch], the resolver returns
    the raw-content URL built with it, after exactly one metadata request. *)
Theorem hash_only_uses_default_branch (E : Env) owner repo fp branch t t' :
  is_name owner = true -> is_name repo = true ->
  endswith fp ".ipynb" = true ->
  _get_default_branch E owner repo t = (inr branch, t') ->
  _convert_github_path_to_raw_url E (owner +:+ "/" +:+ repo +:+ "#" +:+ fp) t
  = (inr ("https://raw.githubusercontent.com/" +:+ owner +:+ "/" +:+ repo
            +:+ "/" +:+ branch +:+ "/" +:+ fp),
     t ++ [EvUrlopen ("https://api.github.com/repos/" +:+ owner +:+ "/" +:+ repo)]).
Proof.
  intros Ho Hr Hsuf Hlk.
  rewrite (resolve_hash_only E _ _ _ t Ho Hr). unfold bind. rewrite Hlk, Hsuf.
  pose proof (lookup_trace E owner repo t) as Htr. rewrite Hlk in Htr.
  cbn [snd] in Htr. now rewrite Htr.
Qed.

Lemma hash_only_uses_default_branch_witness :
  _convert_github_path_to_raw_url (env_branch "develop") "owner/repo#docs/intro.ipynb" []
  = (inr "https://raw.githubusercontent.com/owner/repo/develop/docs/intro.ipynb",
     [EvUrlopen "https://api.github.com/repos/owner/repo"]).
Proof.
  apply (hash_only_uses_default_branch (env_branch "develop") "owner" "repo"
           "docs/intro.ipynb" "develop" []
           [EvUrlopen "https://api.github.com/repos/owner/repo"]); reflexivity.
Defined.

(** X3: a failed lookup ends the resolution.  For [owner/repo#path] and for
    the bare [owner/repo], the exception of the lookup is the exception of
    the resolver; the lookup comes before the suffix check, so a path with a
    wrong suffix does not hide it. *)
Theorem lookup_failure_ends_resolution (E : Env) owner repo e t t' :
  is_name owner = true -> is_name repo = true ->
  _get_default_branch E owner repo t = (inl e, t') ->
  (forall fp,
     _convert_github_path_to_raw_url E (owner +:+ "/" +:+ repo +:+ "#" +:+ fp) t
     = (inl e, t'))
  /\ _convert_github_path_to_raw_url E (owner +:+ "/" +:+ repo) t = (inl e, t').
Proof.
  intros Ho Hr Hlk.
  pose proof (is_name_inv _ Ho) as (Hone & Hos & Hoa & Hoh).
  pose proof (is_name_inv _ Hr) as (Hrne & Hrs & Hra & Hrh).
  split.
  - intros fp. rewrite (resolve_hash_only E _ _ _ t Ho Hr). unfold bind.
    now rewrite Hlk.
  - rewrite resolve_unmarked by now apply owner_repo_no.
    change ("/" +:+ repo) with (String "/" repo).
    rewrite (owner_repo_parts _ _ Ho Hr). unfold bind. now rewrite Hlk.
Qed.

Lemma lookup_failure_ends_resolution_witness :
  _convert_github_path_to_raw_url (env_http_error 404 "Not Found") "owner/repo#notes.txt" []
  = (inl (ValueError "Repository owner/repo not found"),
     [EvUrlopen "https://api.github.com/repos/owner/repo"])
  /\ _convert_github_path_to_raw_url (env_http_error 503 "Unavailable") "owner/repo" []
     = (inl (HTTPError 503 "Unavailable"),
        [EvUrlopen "https://api.github.com/repos/owner/repo"]).
Proof.
  split.
  - apply (proj1 (lookup_failure_ends_resolution (env_http_error 404 "Not Found")
                    "owner" "repo" (ValueError "Repository owner/repo not found") []
                    [EvUrlopen "https://api.github.com/repos/owner/repo"]
                    eq_refl eq_refl eq_refl) "notes.txt").
  - apply (proj2 (lookup_failure_ends_resolution (env_http_error 503 "Unavailable")
                    "owner" "repo" (HTTPError 503 "Unavailable") []
                    [EvUrlopen "https://api.github.com/repos/owner/repo"]
                    eq_refl eq_refl eq_refl)).
Defined.

(** X4: the fallback split of step 5 is applied to a looked-up branch too.
    For the bare [owner/repo], when the lookup answers a default branch of
    the form [b/p] ([b] without '/') and [p] ends with [.ipynb], the
    resolver returns the URL of file [p] on branch [b]. *)
Theorem looked_up_branch_is_split (E : Env) owner repo b p t t' :
  is_name owner = true -> is_name repo = true ->
  contains "/" b = false -> endswith p ".ipynb" = true ->
  _get_default_branch E owner repo t = (inr (b +:+ "/" +:+ p), t') ->
  _convert_github_path_to_raw_url E (owner +:+ "/" +:+ repo) t
  = (inr ("https://raw.githubusercontent.com/" +:+ owner +:+ "/" +:+ repo
            +:+ "/" +:+ b +:+ "/" +:+ p), t').
Proof.
  intros Ho Hr Hbs Hsuf Hlk.
  pose proof (is_name_inv _ Ho) as (Hone & Hos & Hoa & Hoh).
  pose proof (is_name_inv _ Hr) as (Hrne & Hrs & Hra & Hrh).
  rewrite resolve_unmarked by now apply owner_repo_no.
  change ("/" +:+ repo) with (String "/" repo).
  rewrite (owner_repo_parts _ _ Ho Hr). unfold bind at 1. rewrite Hlk.
  destruct (branch_string_split b p Hbs) as [-> ->].
  cbv beta iota zeta delta [bind ret raise unpack2]. now rewrite Hsuf.
Qed.

Lemma looked_up_branch_is_split_witness :
  _convert_github_path_to_raw_url (env_branch "gh-pages/index.ipynb") "owner/repo" []
  = (inr "https://raw.githubusercontent.com/owner/repo/gh-pages/index.ipynb",
     [EvUrlopen "https://api.github.com/repos/owner/repo"]).
Proof.
  apply (looked_up_branch_is_split (env_branch "gh-pages/index.ipynb") "owner" "repo"
           "gh-pages" "index.ipynb" []
           [EvUrlopen "https://api.github.com/repos/owner/repo"]); reflexivity.
Defined.

(** ** What the resolver does to the outside world *)

Lemma bind_then_quiet {A B} (c : M A) (k : A -> M B)
    (P : list event -> list event -> Prop) :
  (forall t, P t (snd (c t))) -> (forall a t, snd (k a t) = t) ->
  forall t, P t (snd (bind c k t)).
Proof.
  intros Hc Hk t. unfold bind. specialize (Hc t).
  destruct (c t) as [[e|a] t1]; cbn [snd] in *; [exact Hc|].
  now rewrite Hk.
Qed.

Lemma unpack2_quiet l t : snd (unpack2 l t) = t.
Proof. destruct l as [|a [|b [|? ?]]]; reflexivity. Qed.

Lemma unpack2_inv l t a b t' : unpack2 l t = (inr (a, b), t') -> l = [a; b] /\ t' = t.
Proof.
  destruct l as [|x [|y [|? ?]]]; cbn; intros H; try discriminate H.
  now injection H as -> -> ->.
Qed.

(** The trace of a resolution: unchanged, or longer by one metadata request
    for the repository the input names in front of its first '#'. *)
Lemma resolver_trace (E : Env) path t :
  (snd (_convert_github_path_to_raw_url E path t) = t
   \/ exists owner repo,
        split "/" (strip "/" (nth 0 (split1 "#" path) EmptyString)) = [owner; repo]
        /\ snd (_convert_github_path_to_raw_url E path t)
           = t ++ [EvUrlopen ("https://api.github.com/repos/" +:+ owner +:+ "/" +:+ repo)])
  /\ (contains "@" (nth 0 (split1 "#" path) EmptyString) = true ->
      snd (_convert_github_path_to_raw_url E path t) = t).
Proof.
  assert (Htail : forall (file_path : option string) owner repo branch t0,
             snd (bind (match file_path with
                        | None =>
                            if negb (contains "/" branch)
                            then raise (ValueError "No file path specified")
                            else unpack2 (split1 "/" branch)
                        | Some fp => ret (branch, fp)
                        end)
                    (fun x => let '(branch, file_path) := x in
                       if negb (endswith file_path ".ipynb")
                       then raise (ValueError "Path must end with .ipynb")
                       else ret ("https://raw.githubusercontent.com/" +:+ owner +:+ "/"
                                   +:+ repo +:+ "/" +:+ branch +:+ "/" +:+ file_path)) t0)
             = t0).
  { intros file_path owner repo branch t0. unfold bind.
    destruct file_path as [fp|].
    - cbn. destruct (endswith fp ".ipynb"); reflexivity.
    - destruct (contains "/" branch); cbn [negb]; [|reflexivity].
      pose proof (unpack2_quiet (split1 "/" branch) t0) as Hq.
      destruct (unpack2 (split1 "/" branch) t0) as [[e|[b p]] t1];
        cbn [snd] in Hq; subst t1; [reflexivity|].
      destruct (endswith p ".ipynb"); reflexivity. }
  cbv beta zeta delta [_convert_github_path_to_raw_url].
  generalize (if (1 <? length (split1 "#" path))%nat
              then nth_error (split1 "#" path) 1 else None) as file_path.
  generalize (nth 0 (split1 "#" path) EmptyString) as repo_part.
  intros repo_part file_path.
  set (P := fun (t0 t1 : list event) =>
              t1 = t0 \/ exists owner repo,
                split "/" (strip "/" repo_part) = [owner; repo]
                /\ t1 = t0 ++ [EvUrlopen ("https://api.github.com/repos/"
                                            +:+ owner +:+ "/" +:+ repo)]).
  assert (Hrefl : forall t0, P t0 t0) by (intros; now left).
  match goal with |- (?x = t \/ _) /\ _ => set (s := x) end.
  assert (Hquiet : contains "@" repo_part = true -> s = t).
  { intros Hat. subst s. rewrite Hat. unfold bind at 1 2.
    pose proof (unpack2_quiet (split1 "@" repo_part) t) as Hq.
    destruct (unpack2 (split1 "@" repo_part) t) as [[e|[ri br]] t1];
      cbn [snd] in Hq; subst t1; [reflexivity|].
    cbn [ret]. cbv zeta.
    destruct (negb (length (split "/" (strip "/" ri)) =? 2)%nat); [reflexivity|].
    unfold bind at 1.
    pose proof (unpack2_quiet (split "/" (strip "/" ri)) t) as Hq.
    destruct (unpack2 (split "/" (strip "/" ri)) t) as [[e|[o r]] t1];
      cbn [snd] in Hq; subst t1; [reflexivity|].
    unfold bind at 1. cbn [ret]. apply Htail. }
  assert (Hlook : contains "@" repo_part = false -> P t s).
  { intros Hat. subst s. rewrite Hat. unfold bind at 1. cbn [ret]. cbv zeta.
    destruct (negb (length (split "/" (strip "/" repo_part)) =? 2)%nat);
      [apply Hrefl|].
    unfold bind at 1.
    destruct (unpack2 (split "/" (strip "/" repo_part)) t) as [[e|[o r]] t1] eqn:Hun;
      [pose proof (unpack2_quiet (split "/" (strip "/" repo_part)) t) as Hq;
       rewrite Hun in Hq; cbn [snd] in Hq; subst t1; apply Hrefl|].
    apply unpack2_inv in Hun as [Hparts ->].
    cbv beta iota. apply bind_then_quiet.
    - intros t0. right. exists o, r. split; [exact Hparts | apply lookup_trace].
    - intros branch t0. apply Htail. }
  destruct (contains "@" repo_part).
  - split; [left|]; auto.
  - split; [now apply Hlook | discriminate].
Qed.

(** X5: resolving a shorthand makes at most one request, and only to the
    metadata endpoint of the repository the input names: the trace is left
    as it was or grows by a single [urlopen] of
    [https://api.github.com/repos/<owner>/<repo>], where [owner] and [repo]
    are the two components of the part of the input in front of its first
    '#'.  Nothing is printed, downloaded or run.  When that part contains
    an '@', no request is made at all. *)
Theorem resolver_effects (E : Env) path t :
  (snd (_convert_github_path_to_raw_url E path t) = t
   \/ exists owner repo,
        split "/" (strip "/" (nth 0 (split1 "#" path) EmptyString)) = [owner; repo]
        /\ snd (_convert_github_path_to_raw_url E path t)
           = t ++ [EvUrlopen ("https://api.github.com/repos/" +:+ owner +:+ "/" +:+ repo)])
  /\ (contains "@" (nth 0 (split1 "#" path) EmptyString) = true ->
      snd (_convert_github_path_to_raw_url E path t) = t).
Proof.
  destruct (resolver_trace E path t) as [Hmost Hnone].
  split; [|exact Hnone].
  destruct Hmost as [Hsame|(owner & repo & Hparts & Hone)]; [now left|].
  right. now exists owner, repo.
Qed.

Lemma resolver_effects_witness :
  snd (_convert_github_path_to_raw_url env_main "owner/repo@dev#docs/intro.ipynb" []) = [].
Proof.
  apply (proj2 (resolver_effects env_main "owner/repo@dev#docs/intro.ipynb" [])).
  reflexivity.
Defined.

(** ** Where a resolved URL points *)

Lemma startswith_app p s : startswith (p +:+ s) p = true.
Proof.
  induction p as [|a p IH]; [now destruct s|].
  change (String a p +:+ s) with (String a (p +:+ s)).
  cbn [startswith]. now rewrite Ascii.eqb_refl, IH.
Qed.

(** [urlparse] on any URL that starts with the raw-content prefix. *)
Lemma urlparse_raw_host chk rest :
  exists parsed,
    UrlParse.urlparse chk ("https://raw.githubusercontent.com/" +:+ rest) = inr parsed
    /\ UrlParse.scheme parsed = "https"
    /\ UrlParse.netloc parsed = "raw.githubusercontent.com".
Proof.
  set (safe := fun c => negb (UrlParse._UNSAFE_URL_BYTES_TO_REMOVE c)).
  cbv beta zeta delta [UrlParse.urlparse]. fold safe.
  change (UrlParse.lstrip_chars UrlParse._WHATWG_C0_CONTROL_OR_SPACE
            ("https://raw.githubusercontent.com/" +:+ rest))
    with ("https://raw.githubusercontent.com/" +:+ rest).
  rewrite filter_app.
  change (filter safe "https://raw.githubusercontent.com/")
    with ("https" +:+ String ":" "//raw.githubusercontent.com/").
  rewrite str_app_assoc.
  generalize (filter safe rest). intros r.
  unfold UrlParse.split_scheme.
  change (String ":" "//raw.githubusercontent.com/" +:+ r)
    with (String ":" ("//raw.githubusercontent.com/" +:+ r)).
  rewrite split1_first by reflexivity.
  change (UrlParse.isalpha "h" &&
          forallb (fun c => contains c UrlParse.scheme_chars) "https") with true.
  cbv iota.
  change (map UrlParse.lower_char "https") with "https".
  change ("//raw.githubusercontent.com/" +:+ r)
    with (String "/" (String "/" ("raw.githubusercontent.com" +:+ String "/" r))).
  cbv iota beta.
  change (UrlParse._splitnetloc ("raw.githubusercontent.com" +:+ String "/" r))
    with ("raw.githubusercontent.com", String "/" r).
  cbv iota beta.
  change (UrlParse.validate_netloc chk "raw.githubusercontent.com") with (@None exn).
  cbv iota beta.
  destruct (UrlParse.cut "#" (String "/" r)) as [u1 frag].
  destruct (UrlParse.cut "?" u1) as [u2 qry].
  destruct (if existsb (String.eqb "https") UrlParse.uses_params && contains ";" u2
            then UrlParse._splitparams u2 else (u2, EmptyString)) as [u3 prm].
  eexists. repeat split.
Qed.

(** X6: a shorthand can only resolve to a notebook on the raw-content host.
    Every URL the resolver returns starts with
    [https://raw.githubusercontent.com/] and ends with [.ipynb], and
    [urlparse] reads its scheme as [https] and its network location as
    [raw.githubusercontent.com], whatever the input and whatever the
    lookup answers. *)
Theorem resolved_url_host (E : Env) path t url t' :
  _convert_github_path_to_raw_url E path t = (inr url, t') ->
  startswith url "https://raw.githubusercontent.com/" = true
  /\ endswith url ".ipynb" = true
  /\ exists parsed,
       UrlParse.urlparse (check_netloc E) url = inr parsed
       /\ UrlParse.scheme parsed = "https"
       /\ UrlParse.netloc parsed = "raw.githubusercontent.com".
Proof.
  intros (rest & -> & Hsuf)%resolver_success_shape. repeat split.
  - apply startswith_app.
  - now apply endswith_app_l.
  - apply urlparse_raw_host.
Qed.

Lemma resolved_url_host_witness :
  startswith "https://raw.githubusercontent.com/owner/repo/a?b/c#d.ipynb"
    "https://raw.githubusercontent.com/" = true
  /\ endswith "https://raw.githubusercontent.com/owner/repo/a?b/c#d.ipynb" ".ipynb" = true
  /\ exists parsed,
       UrlParse.urlparse (check_netloc env_main)
         "https://raw.githubusercontent.com/owner/repo/a?b/c#d.ipynb" = inr parsed
       /\ UrlParse.scheme parsed = "https"
       /\ UrlParse.netloc parsed = "raw.githubusercontent.com".
Proof.
  apply (resolved_url_host env_main "owner/repo@a?b#c#d.ipynb" []
           "https://raw.githubusercontent.com/owner/repo/a?b/c#d.ipynb" []).
  reflexivity.
Defined.

(** ** Slashes around the owner/repo part *)

Lemma all_char_contains c d s :
  forallb (Ascii.eqb c) s = true -> Ascii.eqb c d = false -> contains d s = false.
Proof.
  intros Hall Hd. induction s as [|a s IH]; [reflexivity|].
  cbn [forallb] in Hall. apply andb_true_iff in Hall as [Ha Hs].
  apply Ascii.eqb_eq in Ha. subst a.
  cbn [contains]. now rewrite Hd, IH.
Qed.

Lemma lstrip_all c pre s :
  forallb (Ascii.eqb c) pre = true -> lstrip c (pre +:+ s) = lstrip c s.
Proof.
  induction pre as [|a pre IH]; [reflexivity|].
  cbn [forallb]. intros [Ha Hp]%andb_true_iff.
  apply Ascii.eqb_eq in Ha. subst a.
  change (String c pre +:+ s) with (String c (pre +:+ s)).
  cbn [lstrip]. rewrite Ascii.eqb_refl. now apply IH.
Qed.

Lemma rstrip_all c a post :
  forallb (Ascii.eqb c) post = true -> rstrip c (a +:+ post) = rstrip c a.
Proof.
  intros Hall. induction a as [|x a IH].
  - cbn [String.append]. induction post as [|y post IHp]; [reflexivity|].
    cbn [forallb] in Hall. apply andb_true_iff in Hall as [Hy Hp].
    apply Ascii.eqb_eq in Hy. subst y.
    cbn [rstrip]. now rewrite (IHp Hp), Ascii.eqb_refl.
  - change (String x a +:+ post) with (String x (a +:+ post)).
    cbn [rstrip]. now rewrite IH.
Qed.

(** X7: slashes written before and after the owner/repo part are ignored.
    [///owner/repo//@branch#path] resolves to the URL of
    [owner/repo@branch#path], without any lookup. *)
Theorem slashes_around_owner_repo (E : Env) pre post owner repo branch fp t :
  forallb (Ascii.eqb "/") pre = true -> forallb (Ascii.eqb "/") post = true ->
  is_name owner = true -> is_name repo = true ->
  contains "#" branch = false ->
  endswith fp ".ipynb" = true ->
  _convert_github_path_to_raw_url E
    ((pre +:+ owner +:+ "/" +:+ repo +:+ post) +:+ "@" +:+ branch +:+ "#" +:+ fp) t
  = (inr ("https://raw.githubusercontent.com/" +:+ owner +:+ "/" +:+ repo
            +:+ "/" +:+ branch +:+ "/" +:+ fp), t).
Proof.
  intros Hpre Hpost Ho Hr Hb Hsuf.
  pose proof (is_name_inv _ Ho) as (Hone & Hos & Hoa & Hoh).
  pose proof (is_name_inv _ Hr) as (Hrne & Hrs & Hra & Hrh).
  set (info := pre +:+ owner +:+ "/" +:+ repo +:+ post).
  assert (Hno : forall d, Ascii.eqb "/" d = false ->
                          contains d owner = false -> contains d repo = false ->
                          contains d info = false).
  { intros d Hd Hdo Hdr. unfold info. rewrite !contains_app. cbn [contains].
    now rewrite (all_char_contains _ _ _ Hpre Hd), (all_char_contains _ _ _ Hpost Hd),
      Hdo, Hdr, Hd. }
  assert (Hstrip : strip "/" info = strip "/" (owner +:+ String "/" repo)).
  { unfold strip, info. rewrite (lstrip_all _ _ _ Hpre).
    rewrite !(lstrip_app _ _ _ Hone Hos).
    change (owner +:+ "/" +:+ repo +:+ post)
      with (owner +:+ (String "/" repo +:+ post)).
    rewrite <- str_app_assoc. now apply rstrip_all. }
  destruct (resolve_marked E info branch t (Hno "@"%char eq_refl Hoa Hra)
              (Hno "#"%char eq_refl Hoh Hrh) Hb) as [Hfp _].
  rewrite Hfp, Hstrip, (owner_repo_parts _ _ Ho Hr), Hsuf. reflexivity.
Qed.

Lemma slashes_around_owner_repo_witness :
  _convert_github_path_to_raw_url env_main "///owner/repo//@dev#docs/intro.ipynb" []
  = (inr "https://raw.githubusercontent.com/owner/repo/dev/docs/intro.ipynb", []).
Proof.
  apply (slashes_around_owner_repo env_main "///" "//" "owner" "repo" "dev"
           "docs/intro.ipynb" []); reflexivity.
Defined.

(** * Further properties of the lookup *)

(** X8: whatever the remote answers (a branch, a 404, another failure, a
    response that cannot be decoded), one call of the lookup makes exactly
    one request, to [https://api.github.com/repos/<owner>/<repo>], and
    nothing else: there is no retry and no second endpoint. *)
Theorem lookup_single_request (E : Env) owner repo t :
  exists outcome,
    _get_default_branch E owner repo t
    = (outcome,
       t ++ [EvUrlopen ("https://api.github.com/repos/" +:+ owner +:+ "/" +:+ repo)]).
Proof.
  pose proof (lookup_trace E owner repo t) as Htr.
  destruct (_get_default_branch E owner repo t) as [outcome t1].
  cbn [snd] in Htr. subst t1. now exists outcome.
Qed.

(** X9: a response the lookup cannot use is an error of the caller's.  When
    the decoded metadata has no [default_branch] field the lookup raises
    [KeyError] for that key; when the body cannot be decoded, the decoder's
    exception is raised as it is.  Neither is turned into the not-found
    error. *)
Theorem lookup_unusable_response (E : Env) owner repo body t :
  let url := "https://api.github.com/repos/" +:+ owner +:+ "/" +:+ repo in
  urlopen_read E url = inr body ->
  (forall data,
     json_loads E body = inr data -> data !! "default_branch" = None ->
     _get_default_branch E owner repo t
     = (inl (KeyError "default_branch"), t ++ [EvUrlopen url]))
  /\ (forall e,
        json_loads E body = inl e -> (forall code reason, e <> HTTPError code reason) ->
        _get_default_branch E owner repo t = (inl e, t ++ [EvUrlopen url])).
Proof.
  intros url Hopen. split.
  - intros data Hjson Hfield.
    unfold _get_default_branch, try_except, urlopen, bind, emit, lift, getitem.
    fold url. rewrite Hopen. cbn. rewrite Hjson. cbn. rewrite Hfield. reflexivity.
  - intros e Hjson Hne.
    unfold _get_default_branch, try_except, urlopen, bind, emit, lift.
    fold url. rewrite Hopen. cbn. rewrite Hjson. cbn.
    destruct e as [| code reason | | | | |]; try reflexivity.
    now destruct (Hne code reason).
Qed.

Lemma lookup_unusable_response_witness :
  _get_default_branch
    (env_with (urlopen_read env_main) (fun _ => inr {[ "name" := "repo" ]})
       (urlretrieve_reply env_main)) "owner" "repo" []
  = (inl (KeyError "default_branch"), [EvUrlopen "https://api.github.com/repos/owner/repo"])
  /\ _get_default_branch
       (env_with (urlopen_read env_main)
          (fun _ => inl (JSONDecodeError "Expecting value"))
          (urlretrieve_reply env_main)) "owner" "repo" []
     = (inl (JSONDecodeError "Expecting value"),
        [EvUrlopen "https://api.github.com/repos/owner/repo"]).
Proof.
  split.
  - apply (proj1 (lookup_unusable_response
                    (env_with (urlopen_read env_main) (fun _ => inr {[ "name" := "repo" ]})
                       (urlretrieve_reply env_main)) "owner" "repo" "metadata" []
                    eq_refl) {[ "name" := "repo" ]}); reflexivity.
  - apply (proj2 (lookup_unusable_response
                    (env_with (urlopen_read env_main)
                       (fun _ => inl (JSONDecodeError "Expecting value"))
                       (urlretrieve_reply env_main)) "owner" "repo" "metadata" []
                    eq_refl) (JSONDecodeError "Expecting value")).
    + reflexivity.
    + intros code reason; discriminate.
Defined.

(** * Further properties of the orchestrator *)

(** The first step of the orchestrator, and what follows it. *)
Lemma orchestrator_after_resolution (E : Env) ref output_dir jupyter_args t :
  open_notebook_from_url E ref output_dir jupyter_args t
  = match (if startswith ref "http://" || startswith ref "https://"
           then (inr ref, t)
           else _convert_github_path_to_raw_url E ref t) with
    | (inl e, t') => (inl e, t')
    | (inr url, t') =>
        match UrlParse.urlparse (check_netloc E) url with
        | inl e => (inl e, t')
        | inr parsed =>
            let filename := Pathlib.name (Pathlib.of_str (UrlParse.path parsed)) in
            if endswith filename ".ipynb"
            then
              let dir := match output_dir with Some d => d | None => cwd E end in
              let dest := Pathlib.str (Pathlib.truediv dir filename) in
              let t1 := t' ++ [EvPrint ("Downloading notebook from " +:+ url);
                               EvUrlretrieve url dest] in
              match urlretrieve_reply E url dest with
              | Some e => (inl e, t1)
              | None =>
                  let cmd := ["jupyter"; "notebook"; dest]
                             ++ match jupyter_args with
                                | Some args => args
                                | None => []
                                end in
                  (match run_reply E cmd with
                   | inl e => inl e
                   | inr rc =>
                       if (rc =? 0)%Z then inr tt else inl (CalledProcessError rc cmd)
                   end,
                   t1 ++ [EvPrint ("Opening notebook " +:+ dest); EvRun cmd])
              end
            else (inl (ValueError "URL must point to a Jupyter notebook (.ipynb file)"), t')
        end
    end.
Proof.
  unfold open_notebook_from_url. unfold bind at 1.
  destruct (startswith ref "http://" || startswith ref "https://"); cbn [negb ret].
  - unfold bind at 1.
    destruct (UrlParse.urlparse (check_netloc E) ref) as [e|parsed]; [reflexivity|].
    cbn [lift ret]. cbv zeta.
    destruct (endswith _ ".ipynb"); cbn [negb]; [|reflexivity].
    unfold urlretrieve, subprocess_run, bind, emit.
    destruct (urlretrieve_reply E ref _) as [e|]; cbn [raise ret].
    + now rewrite <- app_assoc.
    + rewrite <- !app_assoc. cbn [app].
      destruct jupyter_args as [[|a l]|]; cbn [app];
        destruct (run_reply E _) as [e|rc]; try reflexivity;
        destruct (rc =? 0)%Z; reflexivity.
  - destruct (_convert_github_path_to_raw_url E ref t) as [[e|url] t']; [reflexivity|].
    unfold bind at 1.
    destruct (UrlParse.urlparse (check_netloc E) url) as [e|parsed]; [reflexivity|].
    cbn [lift ret]. cbv zeta.
    destruct (endswith _ ".ipynb"); cbn [negb]; [|reflexivity].
    unfold urlretrieve, subprocess_run, bind, emit.
    destruct (urlretrieve_reply E url _) as [e|]; cbn [raise ret].
    + now rewrite <- app_assoc.
    + rewrite <- !app_assoc. cbn [app].
      destruct jupyter_args as [[|a l]|]; cbn [app];
        destruct (run_reply E _) as [e|rc]; try reflexivity;
        destruct (rc =? 0)%Z; reflexivity.
Qed.

(** X10: when the download fails, the orchestrator raises the exception of
    the download and stops: the download has been announced and attempted
    once, and the viewer is not run. *)
Theorem download_failure_stops (E : Env) ref output_dir jupyter_args url parsed e t t' :
  (if startswith ref "http://" || startswith ref "https://"
   then url = ref /\ t' = t
   else _convert_github_path_to_raw_url E ref t = (inr url, t')) ->
  UrlParse.urlparse (check_netloc E) url = inr parsed ->
  let filename := Pathlib.name (Pathlib.of_str (UrlParse.path parsed)) in
  let dir := match output_dir with Some d => d | None => cwd E end in
  let dest := Pathlib.str (Pathlib.truediv dir filename) in
  endswith filename ".ipynb" = true ->
  urlretrieve_reply E url dest = Some e ->
  open_notebook_from_url E ref output_dir jupyter_args t
  = (inl e, t' ++ [EvPrint ("Downloading notebook from " +:+ url);
                   EvUrlretrieve url dest]).
Proof.
  intros Hres Hparse filename dir dest Hsuf Hdl.
  rewrite orchestrator_after_resolution.
  destruct (startswith ref "http://" || startswith ref "https://").
  - destruct Hres as [-> ->]. rewrite Hparse. cbv zeta.
    fold filename. rewrite Hsuf. fold dir. fold dest. now rewrite Hdl.
  - rewrite Hres, Hparse. cbv zeta.
    fold filename. rewrite Hsuf. fold dir. fold dest. now rewrite Hdl.
Qed.

Lemma download_failure_stops_witness :
  open_notebook_from_url
    (env_with (urlopen_read env_main) (json_loads env_main)
       (fun _ _ => Some (HTTPError 404 "Not Found")))
    "owner/repo@dev#docs/intro.ipynb" None (Some ["--port"; "8888"]) []
  = (inl (HTTPError 404 "Not Found"),
     [EvPrint "Downloading notebook from https://raw.githubusercontent.com/owner/repo/dev/docs/intro.ipynb";
      EvUrlretrieve "https://raw.githubusercontent.com/owner/repo/dev/docs/intro.ipynb"
        "/home/user/intro.ipynb"]).
Proof.
  apply (download_failure_stops
           (env_with (urlopen_read env_main) (json_loads env_main)
              (fun _ _ => Some (HTTPError 404 "Not Found")))
           "owner/repo@dev#docs/intro.ipynb" None (Some ["--port"; "8888"])
           "https://raw.githubusercontent.com/owner/repo/dev/docs/intro.ipynb"
           {| UrlParse.scheme := "https"; UrlParse.netloc := "raw.githubusercontent.com";
              UrlParse.path := "/owner/repo/dev/docs/intro.ipynb";
              UrlParse.params := EmptyString;
              UrlParse.query := EmptyString; UrlParse.fragment := EmptyString |}
           (HTTPError 404 "Not Found") [] []); reflexivity.
Defined.

(** X11: a failure before the download leaves nothing behind.  When the
    shorthand does not resolve, the resolver's exception is raised; when the
    URL cannot be parsed, the parser's exception is raised; when the filename
    of the URL's path does not end with [.ipynb], the orchestrator raises its
    own suffix error.  In each case nothing is printed, downloaded or run:
    the trace is the one resolution left. *)
Theorem failure_before_download (E : Env) ref output_dir jupyter_args t :
  (forall e t',
     startswith ref "http://" || startswith ref "https://" = false ->
     _convert_github_path_to_raw_url E ref t = (inl e, t') ->
     open_notebook_from_url E ref output_dir jupyter_args t = (inl e, t'))
  /\ (forall url t',
        (if startswith ref "http://" || startswith ref "https://"
         then url = ref /\ t' = t
         else _convert_github_path_to_raw_url E ref t = (inr url, t')) ->
        (forall e,
           UrlParse.urlparse (check_netloc E) url = inl e ->
           open_notebook_from_url E ref output_dir jupyter_args t = (inl e, t'))
        /\ (forall parsed,
              UrlParse.urlparse (check_netloc E) url = inr parsed ->
              endswith (Pathlib.name (Pathlib.of_str (UrlParse.path parsed))) ".ipynb"
              = false ->
              open_notebook_from_url E ref output_dir jupyter_args t
              = (inl (ValueError "URL must point to a Jupyter notebook (.ipynb file)"),
                 t'))).
Proof.
  split.
  - intros e t' Habs Hres. rewrite orchestrator_after_resolution, Habs, Hres.
    reflexivity.
  - intros url t' Hres.
    assert (Hfirst : (if startswith ref "http://" || startswith ref "https://"
                      then (inr ref, t)
                      else _convert_github_path_to_raw_url E ref t) = (inr url, t')).
    { destruct (startswith ref "http://" || startswith ref "https://");
        [now destruct Hres as [-> ->] | exact Hres]. }
    split.
    + intros e Hparse. rewrite orchestrator_after_resolution, Hfirst, Hparse.
      reflexivity.
    + intros parsed Hparse Hsuf.
      rewrite orchestrator_after_resolution, Hfirst, Hparse. cbv zeta.
      now rewrite Hsuf.
Qed.

Lemma failure_before_download_witness :
  open_notebook_from_url env_main "owner/repo@dev" None None []
  = (inl (ValueError "No file path specified"), [])
  /\ open_notebook_from_url env_main "http://[host/nb.ipynb" None None []
     = (inl (ValueError "Invalid IPv6 URL"), [])
  /\ open_notebook_from_url env_main "https://example.com/nb.ipynb/download" None None []
     = (inl (ValueError "URL must point to a Jupyter notebook (.ipynb file)"), []).
Proof.
  destruct (failure_before_download env_main "owner/repo@dev" None None []) as [H1 _].
  destruct (failure_before_download env_main "http://[host/nb.ipynb" None None [])
    as [_ H2].
  destruct (failure_before_download env_main "https://example.com/nb.ipynb/download"
              None None []) as [_ H3].
  split; [|split].
  - apply H1; reflexivity.
  - apply (proj1 (H2 "http://[host/nb.ipynb" [] (conj eq_refl eq_refl))). reflexivity.
  - apply (proj2 (H3 "https://example.com/nb.ipynb/download" [] (conj eq_refl eq_refl))
             {| UrlParse.scheme := "https"; UrlParse.netloc := "example.com";
                UrlParse.path := "/nb.ipynb/download"; UrlParse.params := EmptyString;
                UrlParse.query := EmptyString; UrlParse.fragment := EmptyString |});
      reflexivity.
Defined.

(** ** Where the download lands *)

Lemma split_no_sep c s x : In x (split c s) -> contains c x = false.
Proof.
  revert x. induction s as [|a s IH]; intros x.
  - cbn. intros [<-|[]]. reflexivity.
  - cbn [split]. destruct (Ascii.eqb a c) eqn:Ha.
    + intros [<-|Hin]; [reflexivity | now apply IH].
    + pose proof (split_nonempty c s) as Hne.
      destruct (split c s) as [|h l]; [contradiction|].
      intros [<-|Hin].
      * cbn [contains]. rewrite Ha. apply IH. now left.
      * apply IH. now right.
Qed.

Lemma last_default_or_in {A} (l : list A) d : List.last l d = d \/ In (List.last l d) l.
Proof.
  induction l as [|x l IH]; [now left|].
  destruct l as [|y l]; [right; now left|].
  change (List.last (x :: y :: l) d) with (List.last (y :: l) d).
  destruct IH as [->|Hin]; [now left | right; now right].
Qed.

Lemma splitroot_relative a s :
  Ascii.eqb a "/" = false -> Pathlib.splitroot (String a s) = (EmptyString, String a s).
Proof.
  destruct a as [[] [] [] [] [] [] [] []]; intros H; try reflexivity; discriminate H.
Qed.

(** The name of a path, unless it is empty, is one path component. *)
Lemma path_name_component s :
  Pathlib.name (Pathlib.of_str s) = EmptyString
  \/ (Pathlib.is_component (Pathlib.name (Pathlib.of_str s)) = true
      /\ contains "/" (Pathlib.name (Pathlib.of_str s)) = false).
Proof.
  unfold Pathlib.name, Pathlib.of_str.
  destruct (Pathlib.splitroot s) as [rt rel]. cbn [Pathlib.parts].
  destruct (last_default_or_in
              (List.filter Pathlib.is_component (split "/" rel)) EmptyString)
    as [->|Hin]; [now left|].
  apply List.filter_In in Hin as [Hin Hcomp]. right. split; [exact Hcomp|].
  now apply split_no_sep with (s := rel).
Qed.

(** Joining a directory with one component appends it. *)
Lemma truediv_component dir f :
  Pathlib.is_component f = true -> contains "/" f = false ->
  Pathlib.truediv dir f
  = {| Pathlib.root := Pathlib.root dir; Pathlib.parts := Pathlib.parts dir ++ [f] |}.
Proof.
  intros Hcomp Hs. unfold Pathlib.truediv, Pathlib.of_str.
  destruct f as [|a f]; [discriminate Hcomp|].
  assert (Ha : Ascii.eqb a "/" = false).
  { cbn [contains] in Hs. now apply orb_false_elim in Hs as [Ha _]. }
  rewrite (splitroot_relative _ _ Ha), (split_absent _ _ Hs).
  cbn [List.filter]. rewrite Hcomp. reflexivity.
Qed.

(** X12: the notebook is written directly into the output directory.  The
    filename taken from the URL is a single path component (it holds no
    '/'), so whatever directories the URL's path names, the download goes to
    the output directory (the working directory when none is given)
    extended by that one component. *)
Theorem download_lands_in_output_dir (E : Env) ref output_dir jupyter_args url parsed t t' :
  (if startswith ref "http://" || startswith ref "https://"
   then url = ref /\ t' = t
   else _convert_github_path_to_raw_url E ref t = (inr url, t')) ->
  UrlParse.urlparse (check_netloc E) url = inr parsed ->
  let filename := Pathlib.name (Pathlib.of_str (UrlParse.path parsed)) in
  let dir := match output_dir with Some d => d | None => cwd E end in
  let dest := {| Pathlib.root := Pathlib.root dir;
                 Pathlib.parts := Pathlib.parts dir ++ [filename] |} in
  endswith filename ".ipynb" = true ->
  contains "/" filename = false
  /\ exists outcome later,
       open_notebook_from_url E ref output_dir jupyter_args t
       = (outcome,
          t' ++ EvPrint ("Downloading notebook from " +:+ url)
             :: EvUrlretrieve url (Pathlib.str dest) :: later).
Proof.
  intros Hres Hparse filename dir dest Hsuf.
  destruct (path_name_component (UrlParse.path parsed)) as [Hempty|[Hcomp Hs]].
  { fold filename in Hempty. rewrite Hempty in Hsuf. discriminate Hsuf. }
  fold filename in Hcomp, Hs. split; [exact Hs|].
  assert (Hfirst : (if startswith ref "http://" || startswith ref "https://"
                    then (inr ref, t)
                    else _convert_github_path_to_raw_url E ref t) = (inr url, t')).
  { destruct (startswith ref "http://" || startswith ref "https://");
      [now destruct Hres as [-> ->] | exact Hres]. }
  rewrite orchestrator_after_resolution, Hfirst, Hparse. cbv zeta.
  fold filename. rewrite Hsuf. fold dir.
  rewrite (truediv_component dir filename Hcomp Hs). fold dest.
  destruct (urlretrieve_reply E url (Pathlib.str dest)) as [e|].
  - exists (inl e), []. reflexivity.
  - eexists _, [_; _]. rewrite <- app_assoc. reflexivity.
Qed.

Lemma download_lands_in_output_dir_witness :
  contains "/" "x.ipynb" = false
  /\ exists outcome later,
       open_notebook_from_url env_main "https://example.com/a/../../etc/x.ipynb"
         (Some (Pathlib.of_str "/srv/notebooks")) None []
       = (outcome,
          [] ++ EvPrint "Downloading notebook from https://example.com/a/../../etc/x.ipynb"
             :: EvUrlretrieve "https://example.com/a/../../etc/x.ipynb"
                  "/srv/notebooks/x.ipynb" :: later).
Proof.
  apply (download_lands_in_output_dir env_main "https://example.com/a/../../etc/x.ipynb"
           (Some (Pathlib.of_str "/srv/notebooks")) None
           "https://example.com/a/../../etc/x.ipynb"
           {| UrlParse.scheme := "https"; UrlParse.netloc := "example.com";
              UrlParse.path := "/a/../../etc/x.ipynb"; UrlParse.params := EmptyString;
              UrlParse.query := EmptyString; UrlParse.fragment := EmptyString |}
           [] []).
  - split; reflexivity.
  - reflexivity.
  - reflexivity.
Defined.

(** X13: what one call of the orchestrator does, in every case.  Its events
    are those of the resolution (nothing, or one metadata request), followed
    by nothing, or by the announcement and one download that failed, or by
    the announcement, one download that succeeded, the second announcement
    and one run of the viewer.  So the viewer is never run unless the
    download succeeded just before, and nothing is downloaded or run twice. *)
Theorem orchestrator_effects (E : Env) ref output_dir jupyter_args t :
  exists t' evs,
    snd (open_notebook_from_url E ref output_dir jupyter_args t) = t' ++ evs
    /\ (t' = t
        \/ exists owner repo,
             t' = t ++ [EvUrlopen ("https://api.github.com/repos/"
                                     +:+ owner +:+ "/" +:+ repo)])
    /\ (evs = []
        \/ (exists url dest,
              evs = [EvPrint ("Downloading notebook from " +:+ url);
                     EvUrlretrieve url dest]
              /\ urlretrieve_reply E url dest <> None)
        \/ (exists url dest cmd,
              evs = [EvPrint ("Downloading notebook from " +:+ url);
                     EvUrlretrieve url dest;
                     EvPrint ("Opening notebook " +:+ dest);
                     EvRun cmd]
              /\ urlretrieve_reply E url dest = None)).
Proof.
  rewrite orchestrator_after_resolution.
  assert (Hfirst : exists r t',
             (if startswith ref "http://" || startswith ref "https://"
              then (inr ref, t)
              else _convert_github_path_to_raw_url E ref t) = (r, t')
             /\ (t' = t
                 \/ exists owner repo,
                      t' = t ++ [EvUrlopen ("https://api.github.com/repos/"
                                              +:+ owner +:+ "/" +:+ repo)])).
  { destruct (startswith ref "http://" || startswith ref "https://").
    - exists (inr ref), t. split; [reflexivity | now left].
    - destruct (resolver_trace E ref t) as [Hmost _].
      destruct (_convert_github_path_to_raw_url E ref t) as [r t'].
      exists r, t'. split; [reflexivity|]. cbn [snd] in Hmost.
      destruct Hmost as [Hsame|(owner & repo & _ & Hone)]; [now left|].
      right. now exists owner, repo. }
  destruct Hfirst as (r & t' & -> & Ht').
  exists t'.
  destruct r as [e|url].
  { exists []. rewrite app_nil_r. auto. }
  destruct (UrlParse.urlparse (check_netloc E) url) as [e|parsed].
  { exists []. rewrite app_nil_r. auto. }
  cbv zeta. destruct (endswith _ ".ipynb").
  2:{ exists []. rewrite app_nil_r. auto. }
  destruct (urlretrieve_reply E url _) as [e|] eqn:Hdl.
  - eexists. split; [reflexivity|]. split; [exact Ht'|].
    right; left. eexists _, _. split; [reflexivity|]. now rewrite Hdl.
  - eexists. cbn [snd]. rewrite <- app_assoc. split; [reflexivity|].
    split; [exact Ht'|]. right; right. eexists _, _, _. split; [reflexivity|exact Hdl].
Qed.
